(** * TotalSegmentator report pipeline: a shallow embedding

    The development follows the three source files:
    - [totalseg_pdf.py]      : [generate_pdf_report], the statistics formatter;
    - [totalseg_operator.py] : the two operators [TotalsegmentatorOperator]
                               and [TotalsegmentatorPDFOperator];
    - [app.py]               : [App.compose], the wiring of the pipeline.

    Python values are an inductive type, exceptions are an explicit result
    type, the filesystem is a pair of finite maps, and the collaborators
    that are not part of the repository (the document renderer, the clock,
    the JSON parser, the segmentation executable, the framework operators)
    are section variables. *)

From Stdlib Require Import ZArith String Ascii List Bool Floats DecimalString Lia.
From stdpp Require Import gmap strings.
Set Warnings "-register-all,-inexact-float".
Import ListNotations.
Open Scope string_scope.
Open Scope list_scope.
Open Scope Z_scope.

(** ** Python values, exceptions and results *)

(** The values [json.load] can produce.  A dict is an association list in
    insertion order, which is the order [dict.items()] iterates in. *)
Inductive pyval : Type :=
| PNone
| PBool (b : bool)
| PInt (n : Z)
| PFloat (f : float)
| PStr (s : string)
| PList (l : list pyval)
| PDict (items : list (string * pyval)).

(** The exceptions the modelled code can meet.  All of them derive from
    Python's [Exception]. *)
Inductive exn : Type :=
| IndexError
| TypeError
| ValueError
| OverflowError
| FileNotFoundError (path : string)
| IsADirectoryError (path : string)
| CalledProcessError (returncode : Z)
| JSONDecodeError
| OSError (msg : string)
| LibraryError (msg : string).

(** The result of running a piece of Python: a value or a raised exception. *)
Inductive outcome (A : Type) : Type :=
| Return (a : A)
| Raise (e : exn).
Arguments Return {A} a.
Arguments Raise {A} e.

Definition bind {A B : Type} (c : outcome A) (k : A -> outcome B) : outcome B :=
  match c with
  | Return a => k a
  | Raise e => Raise e
  end.

Declare Scope py_scope.
Delimit Scope py_scope with py.
Notation "'let*' x ':=' c 'in' k" := (bind c (fun x => k))
  (at level 10, x name, c at level 100, k at level 200) : py_scope.
Notation "'let*' ' pat ':=' c 'in' k" :=
  (bind c (fun x => match x with pat => k end))
  (at level 10, pat strict pattern, c at level 100, k at level 200)
  : py_scope.
Open Scope py_scope.

(** [try: c  except (E1, E2): h] where [handled] recognises E1 and E2. *)
Definition try_except {A : Type} (c : outcome A) (handled : exn -> bool)
    (h : outcome A) : outcome A :=
  match c with
  | Return a => Return a
  | Raise e => if handled e then h else Raise e
  end.

(** [JSONDecodeError] is a subclass of [ValueError]. *)
Definition is_ValueError_or_TypeError (e : exn) : bool :=
  match e with
  | ValueError | TypeError | JSONDecodeError => true
  | _ => false
  end.

(** [isinstance(v, dict)], [len(v)], [not v], [k in d], [d[k]] and
    [d.items()] on the values above. *)
Definition isinstance_dict (v : pyval) : bool :=
  match v with PDict _ => true | _ => false end.

Definition dict_items (v : pyval) : list (string * pyval) :=
  match v with PDict items => items | _ => [] end.

Definition py_len (v : pyval) : Z :=
  match v with
  | PDict items => Z.of_nat (length items)
  | PList l => Z.of_nat (length l)
  | PStr s => Z.of_nat (String.length s)
  | _ => 0
  end.

Definition truthy (v : pyval) : bool :=
  match v with
  | PNone => false
  | PBool b => b
  | PInt n => negb (n =? 0)
  | PFloat f => negb (PrimFloat.eqb f 0%float)
  | PStr s => negb (String.eqb s "")
  | PList l => match l with [] => false | _ => true end
  | PDict items => match items with [] => false | _ => true end
  end.

Fixpoint assoc_get (k : string) (items : list (string * pyval)) : option pyval :=
  match items with
  | [] => None
  | (k', v) :: rest => if String.eqb k k' then Some v else assoc_get k rest
  end.

Definition dict_contains (k : string) (v : pyval) : bool :=
  match assoc_get k (dict_items v) with Some _ => true | None => false end.

Definition dict_getitem (v : pyval) (k : string) : pyval :=
  match assoc_get k (dict_items v) with Some x => x | None => PNone end.

(** *** [float(x)] *)

(** Conversion of a Python [int]: round to nearest even on 53 bits, and
    [OverflowError] when the rounded value does not fit a double. *)
Definition float_of_int (n : Z) : outcome float :=
  match binary_normalize 53 1024 n 0 false with
  | S754_infinity _ => Raise OverflowError
  | sf => Return (SF2Prim sf)
  end.

Section Builtins.
  (** [float(s)] on a string is the interpreter's parser: [None] stands for
      the [ValueError] it raises on text that is not a number. *)
Variable float_of_str : string -> option float.

Definition py_float (v : pyval) : outcome float :=
    match v with
    | PFloat f => Return f
    | PInt n => float_of_int n
    | PBool b => Return (if b then 1%float else 0%float)
    | PStr s => match float_of_str s with
                | Some f => Return f
                | None => Raise ValueError
                end
    | PNone | PList _ | PDict _ => Raise TypeError
    end.
End Builtins.

(** *** [str.capitalize()] on strings of ASCII characters: first letter
    upper case, the others lower case.  Python changes the case of letters
    outside ASCII too; here they are left as they are, and the statements
    on rows are made for ASCII names ([is_ascii] below). *)
Definition upper_ascii (c : ascii) : ascii :=
  let n := nat_of_ascii c in
  if ((97 <=? n) && (n <=? 122))%nat then ascii_of_nat (n - 32) else c.

Definition lower_ascii (c : ascii) : ascii :=
  let n := nat_of_ascii c in
  if ((65 <=? n) && (n <=? 90))%nat then ascii_of_nat (n + 32) else c.

Fixpoint lower_str (s : string) : string :=
  match s with
  | EmptyString => EmptyString
  | String c rest => String (lower_ascii c) (lower_str rest)
  end.

Definition capitalize (s : string) : string :=
  match s with
  | EmptyString => EmptyString
  | String c rest => String (upper_ascii c) (lower_str rest)
  end.

(** *** [f"{x:.2f}"]: the exact binary value rounded half-to-even to two
    decimals. *)
Definition decimal (n : Z) : string :=
  NilZero.string_of_uint (N.to_uint (Z.to_N n)).

Definition round_half_even (num den : Z) : Z :=
  let q := num / den in
  let r := num mod den in
  if 2 * r <? den then q
  else if den <? 2 * r then q + 1
  else if Z.even q then q else q + 1.

(** Hundredths of [m * 2^e], rounded. *)
Definition hundredths (m : positive) (e : Z) : Z :=
  if 0 <=? e then Z.pos m * 2 ^ e * 100
  else round_half_even (Z.pos m * 100) (2 ^ (- e)).

Definition two_digits (n : Z) : string :=
  decimal (n / 10) +:+ decimal (n mod 10).

Definition sign_str (s : bool) : string := if s then "-" else "".

Definition format_2f (x : float) : string :=
  match Prim2SF x with
  | S754_nan => "nan"
  | S754_infinity s => sign_str s +:+ "inf"
  | S754_zero s => sign_str s +:+ "0.00"
  | S754_finite s m e =>
      let h := hundredths m e in
      sign_str s +:+ decimal (h / 100) +:+ "." +:+ two_digits (h mod 100)
  end.

(** ** [totalseg_pdf.py]: the document model and [generate_pdf_report] *)

(** reportlab constants: [letter], [inch]. *)
Definition inch : float := 72%float.
Definition letter : float * float := (612%float, 792%float).

(** A paragraph style of the sample style sheet: its name and alignment. *)
Record ParagraphStyle : Type := {
  style_name : string;
  alignment : Z
}.

(** A [TableStyle] command: name, first cell, last cell, arguments. *)
Record table_cmd : Type := {
  cmd_name : string;
  cmd_start : Z * Z;
  cmd_stop : Z * Z;
  cmd_args : list string
}.

(** The flowables the report is made of. *)
Inductive flowable : Type :=
| Paragraph (text : string) (style : ParagraphStyle)
| Spacer (width height : float)
| Table (data : list (list string)) (colWidths : list float)
        (style : list table_cmd).

(** [SimpleDocTemplate(buffer, pagesize=letter, leftMargin=1*inch, ...)]. *)
Record SimpleDocTemplate : Type := {
  pagesize : float * float;
  leftMargin : float;
  rightMargin : float;
  topMargin : float;
  bottomMargin : float
}.

Definition doc : SimpleDocTemplate :=
  {| pagesize := letter;
     leftMargin := (1 * inch)%float; rightMargin := (1 * inch)%float;
     topMargin := (1 * inch)%float; bottomMargin := (1 * inch)%float |}.

(** [styles['h1']], and [styles['Normal']] after
    [normal_style.alignment = 1]; both names of the latter denote the same
    style object, so the date line is centred too. *)
Definition title_style : ParagraphStyle :=
  {| style_name := "Heading1"; alignment := 0 |}.
Definition normal_style : ParagraphStyle :=
  {| style_name := "Normal"; alignment := 1 |}.

Definition report_title : string := "Organ Volume Report".

Definition table_header : list string := ["Organ"; "Volume (cm³)"].

Definition table_style : list table_cmd :=
  let c n a b args :=
    {| cmd_name := n; cmd_start := a; cmd_stop := b; cmd_args := args |} in
  [ c "BACKGROUND" (0, 0) (-1, 0) ["grey"];
    c "TEXTCOLOR" (0, 0) (-1, 0) ["whitesmoke"];
    c "ALIGN" (0, 0) (-1, -1) ["CENTER"];
    c "FONTNAME" (0, 0) (-1, 0) ["Helvetica-Bold"];
    c "BOTTOMPADDING" (0, 0) (-1, 0) ["12"];
    c "BACKGROUND" (0, 1) (-1, -1) ["beige"];
    c "TEXTCOLOR" (0, 1) (-1, -1) ["black"];
    c "FONTNAME" (0, 1) (-1, -1) ["Helvetica"];
    c "GRID" (0, 0) (-1, -1) ["1"; "black"];
    c "LEFTPADDING" (0, 0) (-1, -1) ["10"];
    c "RIGHTPADDING" (0, 0) (-1, -1) ["10"];
    c "TOPPADDING" (0, 0) (-1, -1) ["6"];
    c "BOTTOMPADDING" (0, 1) (-1, -1) ["6"] ].

Definition no_valid_data_line : string :=
  "No valid organ volume data available to display.".
Definition empty_input_line : string := "Input data was empty.".

Section Formatter.
  (** The interpreter's [float(str)]. *)
Variable float_of_str : string -> option float.
  (** [datetime.datetime.now().strftime("%Y-%m-%d %H:%M:%S")] at the time of
      the call. *)
Variable current_date : string.
  (** [doc.build(story)] as it goes during this call: the bytes written to
      the buffer, or the exception the rendering library raises.  The
      library reads more than the story (the time and the identifier it
      stamps on the file), so another call has another [doc_build]. *)
Variable doc_build : list flowable -> outcome string.

  (** One iteration of the loop over [data.items()], lines 65-80: the row
      appended to [table_data] and the new [valid_entries].  The warnings
      of lines 76 and 79 go to standard output and are no part of the
      result; writing them is taken to succeed, as it does for an organ
      name of ASCII characters. *)
Definition table_entry (organ : string) (details : pyval)
      (acc : list (list string) * Z) : outcome (list (list string) * Z) :=
    let '(table_data, valid_entries) := acc in
    if isinstance_dict details && dict_contains "volume" details then
      try_except
        (let* volume_mm3 := py_float float_of_str (dict_getitem details "volume") in
         let volume_cm3 := (volume_mm3 / 1000)%float in
         let formatted_volume := format_2f volume_cm3 in
         Return (table_data ++ [[capitalize organ; formatted_volume]],
                 valid_entries + 1))
        is_ValueError_or_TypeError
        (Return (table_data ++ [[capitalize organ; "Invalid Data"]],
                 valid_entries))
    else
      Return (table_data ++ [[capitalize organ; "Missing Data"]],
              valid_entries).

  (** [for organ, details in data.items(): ...] *)
Fixpoint for_items (items : list (string * pyval))
      (acc : list (list string) * Z) : outcome (list (list string) * Z) :=
    match items with
    | [] => Return acc
    | (organ, details) :: rest =>
        let* acc' := table_entry organ details acc in
        for_items rest acc'
    end.

  (** The title and date blocks, lines 47-57. *)
Definition story_head : list flowable :=
    let story := [] in
    let story := story ++ [Paragraph report_title title_style] in
    let story := story ++ [Spacer 1 (0.2 * inch)] in
    let story :=
      story ++ [Paragraph ("Report generated on: " +:+ current_date)
                          normal_style] in
    story ++ [Spacer 1 (0.3 * inch)].

Definition col_widths : list float :=
    let '(page_width, page_height) := letter in
    let available_width :=
      (page_width - leftMargin doc - rightMargin doc)%float in
    [(available_width * 0.4)%float; (available_width * 0.6)%float].

Definition generate_pdf_report (data : pyval) : outcome (option string) :=
    if negb (isinstance_dict data) || negb (truthy data) then
      Return None
    else
      let story := story_head in
      let table_data := [table_header] in
      let valid_entries := 0 in
      let* '(table_data, valid_entries) :=
        for_items (dict_items data) (table_data, valid_entries) in
      if (valid_entries =? 0) && (0 <? py_len data) then
        let story := story ++ [Paragraph no_valid_data_line normal_style] in
        let* pdf := doc_build story in
        Return (Some pdf)
      else if valid_entries =? 0 then
        let story := story ++ [Paragraph empty_input_line normal_style] in
        let* pdf := doc_build story in
        Return (Some pdf)
      else
        let organ_table := Table table_data col_widths table_style in
        let story := story ++ [organ_table] in
        let story := story ++ [Spacer 1 (0.5 * inch)] in
        match doc_build story with
        | Raise e => Return None
        | Return pdf_bytes => Return (Some pdf_bytes)
        end.
End Formatter.

(** ** The world the operators run in *)

(** DICOM objects of the framework, reduced to what the operators read:
    [selected_series], [series], [get_sop_instances()] and
    [_sop.filename]. *)
Record SOPInstance : Type := { sop_filename : string }.

Record DICOMSeries : Type := {
  SeriesInstanceUID : string;
  Modality : string;
  get_sop_instances : list SOPInstance
}.

Record DICOMStudy : Type := {
  StudyInstanceUID : string;
  get_all_series : list DICOMSeries
}.

Record SelectedSeries : Type := {
  selection_name : string;
  series : DICOMSeries
}.

Record StudySelectedSeries : Type := {
  study : DICOMStudy;
  selected_series : list SelectedSeries
}.

(** What travels on a port. *)
Inductive payload : Type :=
| PyValue (v : pyval)
| Bytes (b : string)
| StudyList (l : list DICOMStudy)
| StudySelectedSeriesList (l : list StudySelectedSeries).

(** The filesystem: regular files by path, and the set of directories. *)
Record filesystem : Type := {
  files : gmap string string;
  dirs : gset string
}.

(** The operations a run performs, in order. *)
Inductive event : Type :=
| EvMkdtemp (d : string)
| EvCopy (src dst : string)
| EvExec (argv : list string)
| EvRmtree (d : string)
| EvCompute (stage : string) (inputs : list (string * payload)).

Record world : Type := {
  fs : filesystem;
  history : list event
}.

Definition log (ev : event) (w : world) : world :=
  {| fs := fs w; history := history w ++ [ev] |}.

Definition set_fs (f : filesystem) (w : world) : world :=
  {| fs := f; history := history w |}.

(** A command: it reads and changes the world and returns or raises.  An
    exception leaves the effects made so far in place. *)
Definition prog (A : Type) : Type := world -> outcome A * world.

Definition pure {A : Type} (a : A) : prog A := fun w => (Return a, w).
Definition throw {A : Type} (e : exn) : prog A := fun w => (Raise e, w).
Definition lift {A : Type} (c : outcome A) : prog A := fun w => (c, w).

(** An action of a collaborator, which sees the filesystem only. *)
Definition ext {A : Type} (c : filesystem -> outcome A * filesystem) : prog A :=
  fun w => let '(r, f') := c (fs w) in (r, set_fs f' w).

Definition pbind {A B : Type} (c : prog A) (k : A -> prog B) : prog B :=
  fun w =>
    match c w with
    | (Return a, w') => k a w'
    | (Raise e, w') => (Raise e, w')
    end.

Notation "'let!' x ':=' c 'in' k" := (pbind c (fun x => k))
  (at level 10, x name, c at level 100, k at level 200) : py_scope.

(** [p] lies below directory [d]. *)
Definition under (d p : string) : bool := String.prefix (d +:+ "/") p.

(** [os.path.basename]: what follows the last slash. *)
Fixpoint basename_from (s cur : string) : string :=
  match s with
  | EmptyString => cur
  | String c rest =>
      if Ascii.eqb c "/" then basename_from rest ""
      else basename_from rest (cur +:+ String c "")
  end.
Definition basename (s : string) : string := basename_from s "".

(** [s.split(" ")]: one field per single space. *)
Fixpoint split_from (s cur : string) : list string :=
  match s with
  | EmptyString => [cur]
  | String c rest =>
      if Ascii.eqb c " " then cur :: split_from rest ""
      else split_from rest (cur +:+ String c "")
  end.
Definition split_space (s : string) : list string := split_from s "".

(** [shutil.rmtree(d)]: [d] and all that lies below it disappear. *)
Definition rmtree (d : string) (f : filesystem) : filesystem :=
  {| files := filter (fun kv => kv.1 <> d /\ under d kv.1 = false) (files f);
     dirs := filter (fun p => p <> d /\ under d p = false) (dirs f) |}.

(** [shutil.copy2(src, dst)] with [dst] a directory: a source that is a
    directory cannot be opened as a file, a source that does not exist is
    not found. *)
Definition copy2 (src dst : string) : prog unit :=
  fun w =>
    if decide (src ∈ dirs (fs w)) then (Raise (IsADirectoryError src), w)
    else
      match files (fs w) !! src with
      | None => (Raise (FileNotFoundError src), w)
      | Some content =>
          let target := dst +:+ "/" +:+ basename src in
          (Return tt,
           log (EvCopy src target)
             (set_fs {| files := <[target := content]> (files (fs w));
                        dirs := dirs (fs w) |} w))
      end.

(** [open(path, "r")] followed by reading the text. *)
Definition open_read (path : string) : prog string :=
  fun w =>
    match files (fs w) !! path with
    | None => (Raise (FileNotFoundError path), w)
    | Some content => (Return content, w)
    end.

(** [for x in xs: body(x)] *)
Fixpoint for_each {A : Type} (xs : list A) (body : A -> prog unit) : prog unit :=
  match xs with
  | [] => pure tt
  | x :: rest => let! _ := body x in for_each rest body
  end.

(** [l[i]] *)
Definition getitem {A : Type} (l : list A) (i : nat) : outcome A :=
  match nth_error l i with
  | Some x => Return x
  | None => Raise IndexError
  end.

(** The result of the formatter as it travels on a port: bytes, or
    [None]. *)
Definition pdf_payload (pdf_bytes : option string) : payload :=
  match pdf_bytes with Some b => Bytes b | None => PyValue PNone end.

(** [op_input.receive(port)]; a port without a message yields [None]. *)
Fixpoint receive (op_input : list (string * payload)) (port : string) : payload :=
  match op_input with
  | [] => PyValue PNone
  | (p, v) :: rest => if String.eqb p port then v else receive rest port
  end.

(** [TemporaryDirectory.__enter__]: the directory [temp] now exists. *)
Definition tmp_enter (temp : string) (w : world) : world :=
  log (EvMkdtemp temp)
    (set_fs {| files := files (fs w); dirs := {[temp]} ∪ dirs (fs w) |} w).

(** [TemporaryDirectory.__exit__]: [temp] is removed with its content. *)
Definition tmp_cleanup (temp : string) (w : world) : world :=
  log (EvRmtree temp) (set_fs (rmtree temp (fs w)) w).

Section Environment.
  (** [tempfile.mkdtemp]: the name chosen for a new directory. *)
Variable mkdtemp : filesystem -> string.
  (** The child process started by [subprocess.check_output]: either the
      launch fails, or the program runs, changes the filesystem and exits
      with a status. *)
Variable subprocess_run : list string -> filesystem -> outcome Z * filesystem.
  (** [json.load] on the text of a file; [None] when the text is not JSON. *)
Variable json_loads : string -> option pyval.

  (** [with tempfile.TemporaryDirectory() as temp: body]: the directory is
      created on entry and removed when the block is left, whether by
      falling off its end or by an exception.  Creating and removing are
      taken to succeed. *)
Definition with_TemporaryDirectory {A : Type} (body : string -> prog A) : prog A :=
    fun w =>
      let temp := mkdtemp (fs w) in
      let '(r, w') := body temp (tmp_enter temp w) in
      (r, tmp_cleanup temp w').

  (** [subprocess.check_output(argv)] *)
Definition check_output (argv : list string) : prog unit :=
    fun w =>
      let '(r, f') := subprocess_run argv (fs w) in
      let w' := log (EvExec argv) (set_fs f' w) in
      match r with
      | Raise e => (Raise e, w')
      | Return status =>
          if status =? 0 then (Return tt, w')
          else (Raise (CalledProcessError status), w')
      end.

Definition json_load (text : string) : prog pyval :=
    match json_loads text with
    | Some v => pure v
    | None => throw JSONDecodeError
    end.

  (** ** [totalseg_operator.py] *)

  (** [data_in[0].selected_series[0].series.get_sop_instances()] *)
Definition first_series_instances (data_in : payload) : outcome (list SOPInstance) :=
    match data_in with
    | StudySelectedSeriesList l =>
        let* s := getitem l 0 in
        let* ss := getitem (selected_series s) 0 in
        Return (get_sop_instances (series ss))
    | _ => Raise TypeError
    end.

Definition totalseg_cmd (in_dir out_dir : string) : string :=
    "TotalSegmentator -f --roi_subset spleen --statistics --body_seg -i "
    +:+ in_dir +:+ " -o " +:+ out_dir.

  (** Lines 73-76: the instances of the first selected series of the first
      study are copied into [temp]. *)
Definition copy_instances (data_in : payload) (temp : string) : prog unit :=
    let! instances := lift (first_series_instances data_in) in
    for_each instances (fun f =>
      let dcm_filepath := sop_filename f in
      copy2 dcm_filepath temp).

  (** Lines 78-86: the executable is run on [temp] and its statistics file
      is read back. *)
Definition run_totalsegmentator (temp : string) : prog pyval :=
    let in_dir := temp in
    let out_dir := in_dir +:+ "/out" in
    let cmd := totalseg_cmd in_dir out_dir in
    let! _ := check_output (split_space cmd) in
    let js := out_dir +:+ "/statistics.json" in
    let! handle := open_read js in
    json_load handle.

  (** The body of the [with] block of [TotalsegmentatorOperator.compute]. *)
Definition segment_in (data_in : payload) (temp : string) : prog pyval :=
    let! _ := copy_instances data_in temp in
    run_totalsegmentator temp.

  (** [TotalsegmentatorOperator.compute]: the result is the list of
      emissions [(port, value)]. *)
Definition Totalsegmentator_compute (op_input : list (string * payload))
      : prog (list (string * payload)) :=
    let data_in := receive op_input "study_selected_series_list" in
    let! report := with_TemporaryDirectory (segment_in data_in) in
    pure [("report_dict", PyValue report)].

Variable float_of_str : string -> option float.
Variable current_date : string.
Variable doc_build : list flowable -> outcome string.

  (** [TotalsegmentatorPDFOperator.compute].  A received object that is not
      a JSON value fails the [isinstance(data, dict)] test of the
      formatter. *)
Definition TotalsegmentatorPDF_compute (op_input : list (string * payload))
      : prog (list (string * payload)) :=
    let report_dict := receive op_input "report_dict" in
    let! pdf_bytes :=
      lift (match report_dict with
            | PyValue v => generate_pdf_report float_of_str current_date doc_build v
            | _ => Return None
            end) in
    pure [("pdf_bytes", pdf_payload pdf_bytes)].
End Environment.

(** ** The pipeline graph and its executor *)

(** An operator as the executor sees it: a name, the class it instantiates,
    its ports (declared in [setup]), an optional [CountCondition] and its
    [compute]. *)
Record operator : Type := {
  op_name : string;
  op_class : string;
  op_condition : option nat;
  op_inputs : list string;
  op_outputs : list string;
  op_compute : list (string * payload) -> prog (list (string * payload))
}.

(** An edge, as added by [add_flow(producer, consumer, {(out, in)})]. *)
Record flow : Type := {
  producer : string;
  out_port : string;
  consumer : string;
  in_port : string
}.

Record graph : Type := {
  operators : list operator;
  flows : list flow
}.

(** Modelled from the spec: [add_flow] of the framework (section 3, Edge):
    both operators join the graph if they are not in it yet, and one edge is
    added per pair of ports. *)
Definition add_operator (op : operator) (g : graph) : graph :=
  if existsb (fun o => String.eqb (op_name o) (op_name op)) (operators g)
  then g
  else {| operators := operators g ++ [op]; flows := flows g |}.

Definition add_flow (src dst : operator) (ports : list (string * string))
    (g : graph) : graph :=
  let g := add_operator dst (add_operator src g) in
  {| operators := operators g;
     flows := flows g ++
              map (fun p => {| producer := op_name src; out_port := fst p;
                               consumer := op_name dst; in_port := snd p |})
                  ports |}.

(** A message waiting at an input port. *)
Record message : Type := {
  msg_stage : string;
  msg_port : string;
  msg_value : payload
}.

Record exec_state : Type := {
  mailbox : list message;
  executed : list string;
  the_world : world
}.

Inductive run_status : Type :=
| Completed
| Aborted (stage : string) (e : exn)
| OutOfFuel.

(** Modelled from the spec: the readiness rule of section 4.1.  The input
    ports that count are those with an incoming edge; a [CountCondition] is
    open while the stage has run fewer times than its count. *)
Definition bound_inputs (g : graph) (op : operator) : list string :=
  map in_port (filter (fun f => String.eqb (consumer f) (op_name op)) (flows g)).

Definition addressed (stage port : string) (m : message) : bool :=
  String.eqb (msg_stage m) stage && String.eqb (msg_port m) port.

Definition count_runs (stage : string) (executed : list string) : nat :=
  length (filter (String.eqb stage) executed).

Definition condition_open (op : operator) (st : exec_state) : bool :=
  match op_condition op with
  | Some n => (count_runs (op_name op) (executed st) <? n)%nat
  | None => true
  end.

Definition eligible (g : graph) (st : exec_state) (op : operator) : bool :=
  condition_open op st &&
  forallb (fun port => existsb (addressed (op_name op) port) (mailbox st))
          (bound_inputs g op).

(** Remove the first message that satisfies [p]. *)
Fixpoint remove_first (p : message -> bool) (l : list message) : list message :=
  match l with
  | [] => []
  | m :: rest => if p m then rest else m :: remove_first p rest
  end.

Definition take_inputs (g : graph) (op : operator) (mb : list message)
    : list (string * payload) * list message :=
  fold_left
    (fun acc port =>
       match find (addressed (op_name op) port) (snd acc) with
       | Some m => (fst acc ++ [(port, msg_value m)],
                    remove_first (addressed (op_name op) port) (snd acc))
       | None => acc
       end)
    (bound_inputs g op) ([], mb).

(** Modelled from the spec: the emission semantics of section 4.1.  A value
    emitted on a port goes to every edge bound to that port, and to no one
    when no edge is. *)
Definition deliver (g : graph) (op : operator)
    (emitted : list (string * payload)) : list message :=
  flat_map
    (fun em =>
       map (fun f => {| msg_stage := consumer f; msg_port := in_port f;
                        msg_value := snd em |})
           (filter (fun f => String.eqb (producer f) (op_name op)
                             && String.eqb (out_port f) (fst em))
                   (flows g)))
    emitted.

(** Modelled from the spec: the graph executor of section 4.1, which belongs
    to the application framework and is not among the repository's sources.
    A stage is eligible when every input port with an incoming edge holds a
    value and its invocation condition is not exhausted; the first eligible
    stage in declaration order runs and consumes its inputs; a value emitted
    on a port is handed to every edge bound to that port; an exception
    raised by a stage aborts the run; the run is complete when no stage is
    eligible. *)
Fixpoint run_graph (g : graph) (fuel : nat) (st : exec_state)
    : run_status * exec_state :=
  match fuel with
  | O => (OutOfFuel, st)
  | S fuel' =>
      match find (eligible g st) (operators g) with
      | None => (Completed, st)
      | Some op =>
          let '(inputs, mb) := take_inputs g op (mailbox st) in
          let ran := executed st ++ [op_name op] in
          let w := log (EvCompute (op_name op) inputs) (the_world st) in
          match op_compute op inputs w with
          | (Raise e, w') =>
              (Aborted (op_name op) e,
               {| mailbox := mb; executed := ran; the_world := w' |})
          | (Return emitted, w') =>
              run_graph g fuel'
                {| mailbox := mb ++ deliver g op emitted;
                   executed := ran; the_world := w' |}
          end
      end
  end.

(** ** [app.py] *)

Definition nl : string := String "010"%char "".
Definition quoted (s : string) : string :=
  String "034"%char "" +:+ s +:+ String "034"%char "".

(** The module-level constant [Rules_Text], line by line. *)
Definition Rules_Text : string :=
  String.concat nl
    [ "";
      "{";
      "    " +:+ quoted "selections" +:+ ": [";
      "        {";
      "            " +:+ quoted "name" +:+ ": " +:+ quoted "CT Series" +:+ ",";
      "            " +:+ quoted "conditions" +:+ ": {";
      "                " +:+ quoted "Modality" +:+ ": " +:+ quoted "CT";
      "            }";
      "        }";
      "    ]";
      "}";
      "" ].

(** [ModelInfo(creator, name, version, uid)] *)
Record ModelInfo : Type := {
  creator : string;
  model_name : string;
  model_version : string;
  model_uid : string
}.

Section App.
  (** The collaborators of the operators of this repository. *)
Variable mkdtemp : filesystem -> string.
Variable subprocess_run : list string -> filesystem -> outcome Z * filesystem.
Variable json_loads : string -> option pyval.
Variable float_of_str : string -> option float.
Variable current_date : string.
Variable doc_build : list flowable -> outcome string.

  (** The operators of the framework, by what their [compute] does:
      the loader reads the studies below a folder; the selector filters them
      by its [rules] argument ([None] when the argument is not given); the
      writer stores the encapsulated report.  Their ports are those the
      classes of the framework declare; the [input_folder] port of the
      loader is fed by no edge, and the executor reads the edges only. *)
Variable load_data_to_studies :
    string -> filesystem -> outcome (list DICOMStudy) * filesystem.
Variable selector_filter :
    option string -> list DICOMStudy -> outcome (list StudySelectedSeries).
Variable write_encapsulated_pdf :
    string -> ModelInfo -> list (string * string) ->
    payload -> payload -> filesystem -> outcome unit * filesystem.

Definition DICOMDataLoaderOperator (condition : option nat)
      (input_folder name : string) : operator :=
    {| op_name := name;
       op_class := "DICOMDataLoaderOperator";
       op_condition := condition;
       op_inputs := ["input_folder"];
       op_outputs := ["dicom_study_list"];
       op_compute := fun _ =>
         let! studies := ext (load_data_to_studies input_folder) in
         pure [("dicom_study_list", StudyList studies)] |}.

Definition DICOMSeriesSelectorOperator (rules : option string)
      (name : string) : operator :=
    {| op_name := name;
       op_class := "DICOMSeriesSelectorOperator";
       op_condition := None;
       op_inputs := ["dicom_study_list"];
       op_outputs := ["study_selected_series_list"];
       op_compute := fun op_input =>
         match receive op_input "dicom_study_list" with
         | StudyList studies =>
             let! selected := lift (selector_filter rules studies) in
             pure [("study_selected_series_list",
                    StudySelectedSeriesList selected)]
         | _ => throw TypeError
         end |}.

Definition DICOMEncapsulatedPDFWriterOperator (name output_folder : string)
      (model_info : ModelInfo) (custom_tags : list (string * string))
      : operator :=
    {| op_name := name;
       op_class := "DICOMEncapsulatedPDFWriterOperator";
       op_condition := None;
       op_inputs := ["pdf_bytes"; "study_selected_series_list"];
       op_outputs := [];
       op_compute := fun op_input =>
         let! _ := ext (write_encapsulated_pdf output_folder model_info
                          custom_tags
                          (receive op_input "study_selected_series_list")
                          (receive op_input "pdf_bytes")) in
         pure [] |}.

  (** The two operators of [totalseg_operator.py], with the ports of their
      [setup]. *)
Definition TotalsegmentatorOperator (name : string) : operator :=
    {| op_name := name;
       op_class := "TotalsegmentatorOperator";
       op_condition := None;
       op_inputs := ["study_selected_series_list"];
       op_outputs := ["report_dict"];
       op_compute := Totalsegmentator_compute mkdtemp subprocess_run json_loads |}.

Definition TotalsegmentatorPDFOperator (name : string) : operator :=
    {| op_name := name;
       op_class := "TotalsegmentatorPDFOperator";
       op_condition := None;
       op_inputs := ["report_dict"];
       op_outputs := ["pdf_bytes"];
       op_compute := TotalsegmentatorPDF_compute float_of_str current_date doc_build |}.

Definition empty_graph : graph := {| operators := []; flows := [] |}.

  (** [App.compose], lines 51-73.  [sample_data_path] and [output_data_path]
      come from the application context. *)
Definition compose (sample_data_path output_data_path : string) : graph :=
    let model_info :=
      {| creator := "J. Wasserthal"; model_name := "TotalSegmentator";
         model_version := "0.0.1"; model_uid := "" |} in
    let loader :=
      DICOMDataLoaderOperator (Some 1%nat) sample_data_path "dicom_loader" in
    let selector := DICOMSeriesSelectorOperator None "series_selector" in
    let pdf_to_dcm :=
      DICOMEncapsulatedPDFWriterOperator "pdf_dcm_encapsulator" output_data_path
        model_info
        [("SeriesDescription", "TotalSegmentator Report: Organ volumes")] in
    let totalseg_op := TotalsegmentatorOperator "totalseg_op" in
    let pdf_op := TotalsegmentatorPDFOperator "totalseg_pdf_op" in
    let g := empty_graph in
    let g := add_flow loader selector [("dicom_study_list", "dicom_study_list")] g in
    let g := add_flow selector totalseg_op
               [("study_selected_series_list", "study_selected_series_list")] g in
    let g := add_flow totalseg_op pdf_op [("report_dict", "report_dict")] g in
    let g := add_flow selector pdf_to_dcm
               [("study_selected_series_list", "study_selected_series_list")] g in
    add_flow pdf_op pdf_to_dcm [("pdf_bytes", "pdf_bytes")] g.

  (** [App().run()]: the composed graph is executed from an empty
      mailbox. *)
Definition App_run (fuel : nat) (sample_data_path output_data_path : string)
      (w : world) : run_status * exec_state :=
    run_graph (compose sample_data_path output_data_path) fuel
      {| mailbox := []; executed := []; the_world := w |}.
End App.

(** ** Vocabulary of the statements *)

(** [p] is the directory [d] or lies below it. *)
Definition inside (d p : string) : Prop := p = d \/ under d p = true.

(** Path [p] reads the same in [f] and [f']. *)
Definition same_at (p : string) (f f' : filesystem) : Prop :=
  files f' !! p = files f !! p /\ (p ∈ dirs f' <-> p ∈ dirs f).

(** Nothing exists at [d] or below it. *)
Definition absent (d : string) (f : filesystem) : Prop :=
  forall p, inside d p -> files f !! p = None /\ p ∉ dirs f.

(** The history of [w'] extends that of [w]. *)
Definition grows (w w' : world) : Prop :=
  exists mid, history w' = history w ++ mid.

(** Path [p] reads the same in [w'] as in [w]. *)
Definition keeps (p : string) (w w' : world) : Prop :=
  same_at p (fs w) (fs w').

(** Every run of [c] relates the world before to the world after by [R]. *)
Definition preserves {A : Type} (R : world -> world -> Prop) (c : prog A) : Prop :=
  forall w r w', c w = (r, w') -> R w w'.

(** A program started with [argv] leaves path [p] alone. *)
Definition leaves_alone
    (subprocess_run : list string -> filesystem -> outcome Z * filesystem)
    (argv : list string) (p : string) : Prop :=
  forall f, same_at p f (snd (subprocess_run argv f)).

(** The command line handed to the child process for the area [temp]. *)
Definition totalseg_argv (temp : string) : list string :=
  split_space (totalseg_cmd temp (temp +:+ "/out")).

(** The statistics file the stage opens for the area [temp]. *)
Definition statistics_path (temp : string) : string :=
  (temp +:+ "/out") +:+ "/statistics.json".

(** The ways the external segmentation can fail once the instances have
    been copied and the filesystem is [f]: the launch fails, the program
    exits with a status other than zero, the statistics file is not there,
    or its text is not JSON. *)
Inductive segmentation_failure
    (subprocess_run : list string -> filesystem -> outcome Z * filesystem)
    (json_loads : string -> option pyval) (temp : string) (f : filesystem)
    : exn -> Prop :=
| launch_failed e f' :
    subprocess_run (totalseg_argv temp) f = (Raise e, f') ->
    segmentation_failure subprocess_run json_loads temp f e
| exit_nonzero status f' :
    subprocess_run (totalseg_argv temp) f = (Return status, f') ->
    status <> 0 ->
    segmentation_failure subprocess_run json_loads temp f
      (CalledProcessError status)
| statistics_missing f' :
    subprocess_run (totalseg_argv temp) f = (Return 0, f') ->
    files f' !! statistics_path temp = None ->
    segmentation_failure subprocess_run json_loads temp f
      (FileNotFoundError (statistics_path temp))
| statistics_malformed f' text :
    subprocess_run (totalseg_argv temp) f = (Return 0, f') ->
    files f' !! statistics_path temp = Some text ->
    json_loads text = None ->
    segmentation_failure subprocess_run json_loads temp f JSONDecodeError.

(** An entry whose volume [float] converts. *)
Definition usable_volume (float_of_str : string -> option float)
    (details : pyval) (x : float) : Prop :=
  isinstance_dict details = true /\
  exists v, assoc_get "volume" (dict_items details) = Some v /\
            py_float float_of_str v = Return x.

(** An entry the loop marks with a sentinel: no volume at all, or a volume
    whose conversion raises [ValueError] or [TypeError]. *)
Definition sentinel_of (float_of_str : string -> option float)
    (details : pyval) : option string :=
  if isinstance_dict details && dict_contains "volume" details then
    match py_float float_of_str (dict_getitem details "volume") with
    | Raise e => if is_ValueError_or_TypeError e then Some "Invalid Data" else None
    | Return _ => None
    end
  else Some "Missing Data".

(** The stage named [stage] was started with [inputs]. *)
Definition computed (stage : string) (inputs : list (string * payload))
    (w : world) : Prop :=
  In (EvCompute stage inputs) (history w).

(** ** Concrete data for the examples *)

Definition spleen_statistics : pyval :=
  PDict [("spleen", PDict [("volume", PFloat 377109)])].

Definition intensity_only : pyval :=
  PDict [("x", PDict [("intensity", PInt 1)])].

Definition huge_volume : pyval :=
  PDict [("x", PDict [("volume", PInt (10 ^ 400))])].

Definition no_numeric_strings : string -> option float := fun _ => None.

(** A renderer that writes the text of the blocks, one per line. *)
Definition block_text (b : flowable) : string :=
  match b with
  | Paragraph text _ => text
  | Spacer _ _ => ""
  | Table data _ _ => String.concat ";" (map (String.concat ",") data)
  end.
Definition render_text (story : list flowable) : outcome string :=
  Return (String.concat nl (map block_text story)).


Definition ct_series : DICOMSeries :=
  {| SeriesInstanceUID := "1.2.1"; Modality := "CT";
     get_sop_instances := [ {| sop_filename := "/input/ct/1.dcm" |};
                            {| sop_filename := "/input/ct/2.dcm" |} ] |}.
Definition mr_series : DICOMSeries :=
  {| SeriesInstanceUID := "1.2.2"; Modality := "MR";
     get_sop_instances := [ {| sop_filename := "/input/mr/1.dcm" |} ] |}.
Definition sample_study : DICOMStudy :=
  {| StudyInstanceUID := "1.2"; get_all_series := [ct_series; mr_series] |}.

Definition sample_fs : filesystem :=
  {| files := {[ "/input/ct/1.dcm" := "ct-1"; "/input/ct/2.dcm" := "ct-2";
                 "/input/mr/1.dcm" := "mr-1" ]};
     dirs := {[ "/input"; "/input/ct"; "/input/mr" ]} |}.
Definition sample_world : world := {| fs := sample_fs; history := [] |}.

Definition sample_mkdtemp : filesystem -> string := fun _ => "/tmp/tmpk3v9".

(** An executable that creates the output directory named by its tenth
    argument, writes [text] to the statistics file and exits with
    [status]. *)
Definition exe_writing (text : string) (status : Z) (argv : list string)
    (f : filesystem) : outcome Z * filesystem :=
  let out_dir := nth 9 argv "" in
  (Return status,
   {| files := <[out_dir +:+ "/statistics.json" := text]> (files f);
      dirs := {[out_dir]} ∪ dirs f |}).

(** An executable that writes nothing and exits with [status]. *)
Definition exe_exiting (status : Z) (argv : list string) (f : filesystem)
    : outcome Z * filesystem :=
  (Return status, f).

(** The text of [spleen_statistics] as the executable writes it, and a
    parser that knows this text and the empty object. *)
Definition spleen_json : string :=
  "{" +:+ quoted "spleen" +:+ ": {" +:+ quoted "volume" +:+ ": 377109.0}}".

Definition sample_json_loads (text : string) : option pyval :=
  if String.eqb text "{}" then Some (PDict [])
  else if String.eqb text spleen_json then Some spleen_statistics
  else None.

Definition sample_loader (folder : string) (f : filesystem)
    : outcome (list DICOMStudy) * filesystem :=
  (Return [sample_study], f).

(** A selector that, whatever its rules, selects every series of every
    study. *)
Definition select_every_series (rules : option string)
    (studies : list DICOMStudy) : outcome (list StudySelectedSeries) :=
  Return (map (fun st =>
                 {| study := st;
                    selected_series :=
                      map (fun s => {| selection_name := ""; series := s |})
                          (get_all_series st) |})
              studies).

(** What that selector returns on the sample study. *)
Definition sample_selected : list StudySelectedSeries :=
  [ {| study := sample_study;
       selected_series := [ {| selection_name := ""; series := ct_series |};
                            {| selection_name := ""; series := mr_series |} ] |} ].

(** A writer that stores nothing and, as the writer of the framework
    does, refuses a report that is not a non-empty byte string. *)
Definition sample_writer (folder : string) (info : ModelInfo)
    (tags : list (string * string)) (selected pdf : payload)
    (f : filesystem) : outcome unit * filesystem :=
  match pdf with
  | Bytes b =>
      if String.eqb b "" then (Raise (OSError "Input is read but blank."), f)
      else (Return tt, f)
  | _ => (Raise (OSError "Input is read but blank."), f)
  end.

(** The run of the composed application in the sample world, with the
    executable [exe] and the renderer [render]. *)
Definition sample_run
    (exe : list string -> filesystem -> outcome Z * filesystem)
    (render : list flowable -> outcome string) (fuel : nat)
    : run_status * exec_state :=
  App_run sample_mkdtemp exe sample_json_loads no_numeric_strings
    "2024-05-01 12:00:00" render sample_loader select_every_series
    sample_writer fuel "/input" "/output" sample_world.

(** ** Vocabulary of the further statements *)

(** The second cell of the row the loop writes for an entry, lines 66-80:
    the formatted volume, or one of the two markers; [None] when the
    conversion raises an exception the loop does not handle. *)
Definition expected_cell (float_of_str : string -> option float)
    (details : pyval) : option string :=
  if isinstance_dict details && dict_contains "volume" details then
    match py_float float_of_str (dict_getitem details "volume") with
    | Return x => Some (format_2f (x / 1000))
    | Raise e =>
        if is_ValueError_or_TypeError e then Some "Invalid Data" else None
    end
  else Some "Missing Data".

Definition row_of (float_of_str : string -> option float)
    (kv : string * pyval) : list string :=
  [capitalize kv.1;
   match expected_cell float_of_str kv.2 with Some c => c | None => "" end].

(** The entry counts as valid: it is a mapping with a volume that [float]
    converts. *)
Definition is_usable (float_of_str : string -> option float)
    (details : pyval) : bool :=
  isinstance_dict details && dict_contains "volume" details &&
  match py_float float_of_str (dict_getitem details "volume") with
  | Return _ => true
  | Raise _ => false
  end.

Definition count_usable (float_of_str : string -> option float)
    (items : list (string * pyval)) : nat :=
  length (List.filter (fun kv => is_usable float_of_str kv.2) items).

(** The number of spaces of a string. *)
Fixpoint count_spaces (s : string) : nat :=
  match s with
  | EmptyString => O
  | String c rest =>
      if Ascii.eqb c " " then S (count_spaces rest) else count_spaces rest
  end.

(** Where [copy2] puts the file of an instance. *)
Definition copy_target (temp : string) (f : SOPInstance) : string :=
  temp +:+ "/" +:+ basename (sop_filename f).

(** The stages of the application, in the order of the dataflow. *)
Definition pipeline_stages : list string :=
  ["dicom_loader"; "series_selector"; "totalseg_op"; "totalseg_pdf_op";
   "pdf_dcm_encapsulator"].

(** Checks on a graph: the operator of a name, its position, and whether
    an edge leads from a stage to a later one. *)
Definition find_operator (g : graph) (name : string) : option operator :=
  find (fun o => String.eqb (op_name o) name) (operators g).

Fixpoint position (name : string) (names : list string) : option nat :=
  match names with
  | [] => None
  | n :: rest =>
      if String.eqb n name then Some O
      else match position name rest with
           | Some k => Some (S k)
           | None => None
           end
  end.

Definition flow_forward (g : graph) (f : flow) : bool :=
  match position (producer f) (map op_name (operators g)),
        position (consumer f) (map op_name (operators g)) with
  | Some i, Some j => (i <? j)%nat
  | _, _ => false
  end.

(** A renderer that refuses every document holding the line
    "Input data was empty." and otherwise writes the text of the blocks. *)
Definition is_empty_input_block (b : flowable) : bool :=
  match b with
  | Paragraph text style =>
      String.eqb text empty_input_line
      && String.eqb (style_name style) "Normal"
      && (alignment style =? 1)
  | _ => false
  end.

Definition render_text_strict (story : list flowable) : outcome string :=
  if existsb is_empty_input_block story
  then Raise (LibraryError "empty input")
  else render_text story.

(** Two series directories holding a file of the same name. *)
Definition colliding_world : world :=
  {| fs := {| files := {[ "/input/a/1.dcm" := "first"; "/input/b/1.dcm" := "second" ]};
              dirs := {[ "/input"; "/input/a"; "/input/b" ]} |};
     history := [] |}.

Definition colliding_selection : payload :=
  StudySelectedSeriesList
    [{| study := {| StudyInstanceUID := "1.3"; get_all_series := [] |};
        selected_series :=
          [{| selection_name := "";
              series :=
                {| SeriesInstanceUID := "1.3.1"; Modality := "CT";
                   get_sop_instances :=
                     [ {| sop_filename := "/input/a/1.dcm" |};
                       {| sop_filename := "/input/b/1.dcm" |} ] |} |}] |}].

(** ** Vocabulary of the statements on keys, areas and ports *)

(** A string of ASCII characters.  On such a key [capitalize] is
    [str.capitalize], and the text the diagnostics of lines 76 and 79 print
    can be encoded by any standard output. *)
Definition is_ascii_char (c : ascii) : bool := (nat_of_ascii c <? 128)%nat.

Fixpoint is_ascii (s : string) : bool :=
  match s with
  | EmptyString => true
  | String c rest => is_ascii_char c && is_ascii rest
  end.

(** [w'] has the directories of [w]. *)
Definition same_dirs (w w' : world) : Prop := dirs (fs w') = dirs (fs w).

(** A renderer that stamps what it writes, as a library does with the
    time and the identifier of the file, and then writes the text of the
    blocks. *)
Definition render_stamped (stamp : string) (story : list flowable)
    : outcome string :=
  Return (stamp +:+ nl +:+ String.concat nl (map block_text story)).

(** The statistics of the example of [totalseg_pdf.py], lines 150-168. *)
Definition segmentation_data : pyval :=
  let organ (volume intensity : float) : pyval :=
    PDict [("volume", PFloat volume); ("intensity", PFloat intensity)] in
  PDict
    [ ("spleen", organ 377109.0%float 92.77547%float);
      ("kidney_right", organ 185342.5%float 101.5%float);
      ("kidney_left", organ 192588.1%float 100.8%float);
      ("gallbladder", organ 45012.3%float 75.2%float);
      ("liver", organ 1650234.7%float 110.1%float);
      ("stomach", organ 210455.0%float 60.9%float);
      ("pancreas", organ 98765.4%float 105.3%float);
      ("adrenal_gland_right", organ 5123.4%float 120.0%float);
      ("adrenal_gland_left", organ 5589.1%float 118.5%float);
      ("lung_upper_lobe_left", organ 450123.6%float (-600.0)%float);
      ("lung_lower_lobe_left", organ 510345.8%float (-610.5)%float);
      ("lung_upper_lobe_right", organ 480789.2%float (-595.0)%float);
      ("lung_middle_lobe_right", organ 210567.1%float (-580.3)%float);
      ("lung_lower_lobe_right", organ 530987.4%float (-615.2)%float);
      ("invalid_organ", PDict [("intensity", PFloat 100.0%float)]);
      ("another_invalid", PStr "not a dictionary");
      ("empty_details", PDict []) ].

(** Entries whose volumes are an integer, a boolean and a negative
    integer, under keys with capital letters. *)
Definition numeric_kinds : list (string * pyval) :=
  [ ("LIVER", PDict [("volume", PInt 1500000)]);
    ("kidney_Left", PDict [("volume", PBool true)]);
    ("x1", PDict [("volume", PInt (-2500))]) ].

(** The operators this repository declares, by class, and whether the
    ports an edge names at such an operator are ports of its [setup]. *)
Definition declared_here (o : operator) : bool :=
  String.eqb (op_class o) "TotalsegmentatorOperator"
  || String.eqb (op_class o) "TotalsegmentatorPDFOperator".

Definition producer_port_ok (g : graph) (f : flow) : bool :=
  match find_operator g (producer f) with
  | Some p =>
      implb (declared_here p)
            (existsb (String.eqb (out_port f)) (op_outputs p))
  | None => false
  end.

Definition consumer_port_ok (g : graph) (f : flow) : bool :=
  match find_operator g (consumer f) with
  | Some c =>
      implb (declared_here c)
            (existsb (String.eqb (in_port f)) (op_inputs c))
  | None => false
  end.

(** The edges that reach input port [p] of [o], and those that leave its
    output port [p]. *)
Definition edges_into (g : graph) (o : operator) (p : string) : list flow :=
  List.filter (fun f => String.eqb (consumer f) (op_name o)
                   && String.eqb (in_port f) p) (flows g).

Definition edges_out_of (g : graph) (o : operator) (p : string) : list flow :=
  List.filter (fun f => String.eqb (producer f) (op_name o)
                   && String.eqb (out_port f) p) (flows g).

(** Every input port of [o] has one incoming edge, every output port at
    least one outgoing edge. *)
Definition ports_wired (g : graph) (o : operator) : bool :=
  forallb (fun p => (length (edges_into g o p) =? 1)%nat) (op_inputs o)
  && forallb (fun p => (1 <=? length (edges_out_of g o p))%nat) (op_outputs o).

(** * Properties *)

(** ** The result monads *)

Lemma bind_Return {A B : Type} (c : outcome A) (k : A -> outcome B) (b : B) :
  bind c k = Return b -> exists a, c = Return a /\ k a = Return b.
Proof. destruct c as [a|e]; simpl; [eauto | discriminate]. Qed.

Lemma pbind_run {A B : Type} (c : prog A) (k : A -> prog B) (w w' : world) (a : A) :
  c w = (Return a, w') -> pbind c k w = k a w'.
Proof. intros H. unfold pbind. now rewrite H. Qed.

Lemma pbind_raise {A B : Type} (c : prog A) (k : A -> prog B) (w w' : world) (e : exn) :
  c w = (Raise e, w') -> pbind c k w = (Raise e, w').
Proof. intros H. unfold pbind. now rewrite H. Qed.

(** ** The formatter: rows of the table *)

Section FormatterFacts.
Variable float_of_str : string -> option float.

  (** [float] raises nothing but these three. *)
Lemma py_float_raises (v : pyval) (e : exn) :
    py_float float_of_str v = Raise e ->
    e = TypeError \/ e = ValueError \/ e = OverflowError.
  Proof.
    destruct v as [|b|n|f|s|l|items]; simpl; try (intros [= <-]; auto; fail).
    - unfold float_of_int.
      destruct (binary_normalize 53 1024 n 0 false); intros [= <-]; auto.
    - destruct (float_of_str s); intros [= <-]; auto.
  Qed.

Lemma table_entry_usable (organ : string) (details : pyval) (x : float)
      (rows : list (list string)) (n : Z) :
    usable_volume float_of_str details x ->
    table_entry float_of_str organ details (rows, n)
    = Return (rows ++ [[capitalize organ; format_2f (x / 1000)]], n + 1).
  Proof.
    intros [Hd (v & Hv & Hx)]. unfold table_entry, dict_contains, dict_getitem.
    rewrite Hd, Hv. simpl. rewrite Hx. reflexivity.
  Qed.

Lemma table_entry_sentinel (organ : string) (details : pyval) (s : string)
      (rows : list (list string)) (n : Z) :
    sentinel_of float_of_str details = Some s ->
    table_entry float_of_str organ details (rows, n)
    = Return (rows ++ [[capitalize organ; s]], n).
  Proof.
    unfold sentinel_of, table_entry.
    destruct (isinstance_dict details && dict_contains "volume" details).
    - destruct (py_float float_of_str (dict_getitem details "volume")) as [x|e];
        simpl; [discriminate|].
      destruct (is_ValueError_or_TypeError e); [|discriminate].
      now intros [= <-].
    - now intros [= <-].
  Qed.

  (** Whenever an iteration returns, it has appended one row that starts
      with the capitalised key. *)
Lemma table_entry_row (organ : string) (details : pyval)
      (rows rows' : list (list string)) (n n' : Z) :
    table_entry float_of_str organ details (rows, n) = Return (rows', n') ->
    exists cell, rows' = rows ++ [[capitalize organ; cell]] /\ n <= n' <= n + 1.
  Proof.
    unfold table_entry.
    destruct (isinstance_dict details && dict_contains "volume" details).
    - destruct (py_float float_of_str (dict_getitem details "volume")) as [x|e];
        simpl.
      + intros [= <- <-]. eexists. split; [reflexivity | lia].
      + destruct (is_ValueError_or_TypeError e); [|discriminate].
        intros [= <- <-]. eexists. split; [reflexivity | lia].
    - intros [= <- <-]. eexists. split; [reflexivity | lia].
  Qed.

  (** The loop appends one row per item, in order. *)
Lemma for_items_rows (items : list (string * pyval)) :
    forall (rows rows' : list (list string)) (n n' : Z),
      for_items float_of_str items (rows, n) = Return (rows', n') ->
      exists new,
        rows' = rows ++ new /\ length new = length items /\
        Forall2 (fun kv row => exists cell, row = [capitalize kv.1; cell])
                items new /\
        n <= n' <= n + Z.of_nat (length items).
  Proof.
    induction items as [|[organ details] rest IH]; intros rows rows' n n' H.
    - simpl in H. injection H as <- <-. exists []. rewrite app_nil_r.
      repeat split; simpl; try constructor; lia.
    - cbn [for_items] in H. apply bind_Return in H as ([rows1 n1] & H1 & H2).
      apply table_entry_row in H1 as (cell & -> & Hn).
      apply IH in H2 as (new & -> & Hlen & Hall & Hn').
      exists ([capitalize organ; cell] :: new). rewrite <- app_assoc.
      repeat split; simpl; try lia.
      constructor; [eexists; reflexivity | assumption].
  Qed.

  (** The row of a usable entry, at the place of the entry. *)
Lemma for_items_usable_row (items : list (string * pyval)) :
    forall (rows rows' : list (list string)) (n n' : Z) (i : nat)
           (organ : string) (details : pyval) (x : float),
      for_items float_of_str items (rows, n) = Return (rows', n') ->
      items !! i = Some (organ, details) ->
      usable_volume float_of_str details x ->
      rows' !! (length rows + i)%nat
      = Some [capitalize organ; format_2f (x / 1000)] /\ n < n'.
  Proof.
    induction items as [|[organ0 details0] rest IH];
      intros rows rows' n n' i organ details x H Hi Hx; [discriminate|].
    cbn [for_items] in H. apply bind_Return in H as ([rows1 n1] & H1 & H2).
    destruct i as [|i]; simpl in Hi.
    - injection Hi as -> ->.
      rewrite (table_entry_usable _ _ _ _ _ Hx) in H1. injection H1 as <- <-.
      apply for_items_rows in H2 as (new & -> & _ & _ & Hn).
      split; [|lia].
      rewrite Nat.add_0_r, <- app_assoc, lookup_app_r by lia.
      now rewrite Nat.sub_diag.
    - pose proof (table_entry_row _ _ _ _ _ _ H1) as (cell & -> & Hn).
      destruct (IH _ _ _ _ _ _ _ _ H2 Hi Hx) as [Hrow Hlt]. split; [|lia].
      rewrite length_app in Hrow. simpl in Hrow.
      now replace (length rows + S i)%nat with (length rows + 1 + i)%nat by lia.
  Qed.

  (** The loop returns whenever every entry is usable or gets a sentinel,
      that is, whenever no conversion raises [OverflowError]; the table then
      has one row per entry. *)
Lemma for_items_total (items : list (string * pyval)) :
    forall (rows : list (list string)) (n : Z),
      Forall (fun kv => sentinel_of float_of_str kv.2 <> None
                        \/ exists x, usable_volume float_of_str kv.2 x) items ->
      exists new n',
        for_items float_of_str items (rows, n) = Return (rows ++ new, n') /\
        length new = length items.
  Proof.
    induction items as [|[organ details] rest IH]; intros rows n Hall.
    - exists [], n. now rewrite app_nil_r.
    - inversion Hall as [|kv l Hs Hrest]; subst. cbn [for_items].
      destruct Hs as [Hs|[x Hx]].
      + simpl in Hs. destruct (sentinel_of float_of_str details) as [s|] eqn:E; [|congruence].
        rewrite (table_entry_sentinel _ _ _ _ _ E). cbn [bind].
        destruct (IH (rows ++ [[capitalize organ; s]]) n Hrest)
          as (new & n' & Hnew & Hlen).
        exists ([capitalize organ; s] :: new), n'.
        rewrite Hnew, <- app_assoc. simpl. split; [reflexivity | lia].
      + simpl in Hx. rewrite (table_entry_usable _ _ _ _ _ Hx). cbn [bind].
        destruct (IH (rows ++ [[capitalize organ; format_2f (x / 1000)]])
                     (n + 1) Hrest) as (new & n' & Hnew & Hlen).
        exists ([capitalize organ; format_2f (x / 1000)] :: new), n'.
        rewrite Hnew, <- app_assoc. simpl. split; [reflexivity | lia].
  Qed.
End FormatterFacts.

(** ** The formatter: what [generate_pdf_report] returns *)


(** C3: at the input [{"x": {"intensity": 1}}] no entry has a usable volume,
    the explanatory line is rendered outside any [try], and an exception of
    the rendering library leaves [generate_pdf_report] as an exception
    instead of becoming a null result; on the table path, at
    [{"spleen": {"volume": 377109.0}}], the same exception is caught and the
    result is null. *)
Theorem C3_render_failure_escapes_explanatory_path :
  forall (float_of_str : string -> option float) (current_date : string)
         (e : exn),
    generate_pdf_report float_of_str current_date (fun _ => Raise e)
      intensity_only = Raise e
    /\ generate_pdf_report float_of_str current_date (fun _ => Raise e)
         spleen_statistics = Return None.
Proof. intros fos date e. split; vm_compute; reflexivity. Qed.

(** C5: at the input [{"x": {"volume": 10**400}}] the conversion [float]
    raises [OverflowError], which the [except (ValueError, TypeError)] of the
    loop does not handle: the call raises, and no table with the row of
    [x] is produced. *)
Theorem C5_huge_integer_volume_raises :
  forall (float_of_str : string -> option float) (current_date : string)
         (doc_build : list flowable -> outcome string),
    generate_pdf_report float_of_str current_date doc_build huge_volume
    = Raise OverflowError.
Proof. intros fos date build. vm_compute. reflexivity. Qed.




(** ** The filesystem *)

Lemma prefix_append (a b : string) : String.prefix a (a +:+ b) = true.
Proof.
  induction a as [|c a IH]; simpl; [now destruct b|].
  destruct (ascii_dec c c); [assumption | congruence].
Qed.

Lemma append_assoc (a b c : string) : (a +:+ b) +:+ c = a +:+ (b +:+ c).
Proof.
  induction a as [|x a IH]; [reflexivity|].
  change (String x ((a +:+ b) +:+ c) = String x (a +:+ (b +:+ c))).
  now rewrite IH.
Qed.

(** What is written into a directory lies below it. *)
Lemma under_join (d b : string) : under d (d +:+ "/" +:+ b) = true.
Proof. unfold under. rewrite <- append_assoc. apply prefix_append. Qed.

Lemma not_inside (d p : string) :
  ~ inside d p <-> p <> d /\ under d p = false.
Proof.
  unfold inside. destruct (under d p); split.
  - intros H. exfalso. apply H. now right.
  - intros [_ H]. discriminate.
  - intros H. split; [|reflexivity]. intros ->. apply H. now left.
  - intros [H _] [->|H']; [congruence | discriminate].
Qed.

Lemma same_at_refl (p : string) (f : filesystem) : same_at p f f.
Proof. split; reflexivity. Qed.

Lemma same_at_trans (p : string) (f1 f2 f3 : filesystem) :
  same_at p f1 f2 -> same_at p f2 f3 -> same_at p f1 f3.
Proof. intros [H1 H2] [H3 H4]. split; [congruence | tauto]. Qed.

(** [rmtree] leaves alone what is outside the directory ... *)
Lemma rmtree_outside (d p : string) (f : filesystem) :
  ~ inside d p -> same_at p f (rmtree d f).
Proof.
  intros H. apply not_inside in H. split; simpl.
  - destruct (files f !! p) as [x|] eqn:E.
    + apply map_lookup_filter_Some. split; [assumption | exact H].
    + apply map_lookup_filter_None. left. assumption.
  - rewrite elem_of_filter. tauto.
Qed.

(** ... and leaves nothing of what is inside. *)
Lemma rmtree_inside (d p : string) (f : filesystem) :
  inside d p -> files (rmtree d f) !! p = None /\ p ∉ dirs (rmtree d f).
Proof.
  intros H. split; simpl.
  - apply map_lookup_filter_None. right. intros x _ Hout.
    apply (proj2 (not_inside d p)); assumption.
  - rewrite elem_of_filter. intros [Hout _].
    apply (proj2 (not_inside d p)); assumption.
Qed.

(** Two filesystems that read the same at every path are equal. *)
Lemma filesystem_eq (f f' : filesystem) :
  (forall p, same_at p f f') -> f' = f.
Proof.
  intros H. destruct f as [fl ds], f' as [fl' ds']. f_equal.
  - apply map_eq. intros p. apply (H p).
  - apply set_eq. intros p. apply (H p).
Qed.

(** ** Commands: histories grow, and the paths a command does not write
    keep their content *)

(** The command line and the statistics path, by name. *)
Lemma run_totalsegmentator_eq
    (subprocess_run : list string -> filesystem -> outcome Z * filesystem)
    (json_loads : string -> option pyval) (temp : string) :
  run_totalsegmentator subprocess_run json_loads temp
  = pbind (check_output subprocess_run (totalseg_argv temp))
      (fun _ => pbind (open_read (statistics_path temp))
                  (fun handle => json_load json_loads handle)).
Proof.
  unfold run_totalsegmentator, totalseg_argv, statistics_path. reflexivity.
Qed.

#[local] Instance grows_refl : Reflexive grows.
Proof. intros w. exists []. now rewrite app_nil_r. Qed.

#[local] Instance grows_trans : Transitive grows.
Proof.
  intros w1 w2 w3 [m1 H1] [m2 H2]. exists (m1 ++ m2).
  now rewrite H2, H1, app_assoc.
Qed.

#[local] Instance keeps_refl (p : string) : Reflexive (keeps p).
Proof. intros w. apply same_at_refl. Qed.

#[local] Instance keeps_trans (p : string) : Transitive (keeps p).
Proof. intros w1 w2 w3. apply same_at_trans. Qed.

Section Preservation.
Variable R : world -> world -> Prop.
Context `{!Reflexive R, !Transitive R}.

Lemma preserves_pure {A : Type} (a : A) : preserves R (pure a).
  Proof. intros w r w' [= <- <-]. reflexivity. Qed.

Lemma preserves_throw {A : Type} (e : exn) : preserves R (@throw A e).
  Proof. intros w r w' [= <- <-]. reflexivity. Qed.

Lemma preserves_lift {A : Type} (c : outcome A) : preserves R (lift c).
  Proof. intros w r w' [= <- <-]. reflexivity. Qed.

Lemma preserves_pbind {A B : Type} (c : prog A) (k : A -> prog B) :
    preserves R c -> (forall a, preserves R (k a)) -> preserves R (pbind c k).
  Proof.
    intros Hc Hk w r w' H. unfold pbind in H.
    destruct (c w) as [[a|e] w1] eqn:E.
    - transitivity w1; [eapply Hc, E | eapply Hk, H].
    - injection H as <- <-. eapply Hc, E.
  Qed.

Lemma preserves_for_each {A : Type} (xs : list A) (body : A -> prog unit) :
    (forall x, preserves R (body x)) -> preserves R (for_each xs body).
  Proof.
    intros Hb. induction xs as [|x rest IH]; simpl.
    - apply preserves_pure.
    - apply preserves_pbind; [apply Hb | intros _; exact IH].
  Qed.

Lemma preserves_open_read (path : string) : preserves R (open_read path).
  Proof.
    intros w r w' H. unfold open_read in H.
    destruct (files (fs w) !! path); injection H as <- <-; reflexivity.
  Qed.

Lemma preserves_json_load (json_loads : string -> option pyval)
      (text : string) :
    preserves R (json_load json_loads text).
  Proof.
    unfold json_load. destruct (json_loads text);
      [apply preserves_pure | apply preserves_throw].
  Qed.

Lemma preserves_run_totalsegmentator
      (subprocess_run : list string -> filesystem -> outcome Z * filesystem)
      (json_loads : string -> option pyval) (temp : string) :
    preserves R (check_output subprocess_run (totalseg_argv temp)) ->
    preserves R (run_totalsegmentator subprocess_run json_loads temp).
  Proof.
    intros Hexe. rewrite run_totalsegmentator_eq.
    apply preserves_pbind; [exact Hexe|].
    intros _. apply preserves_pbind; [apply preserves_open_read|].
    intros text. apply preserves_json_load.
  Qed.

  (** The block of the [with] statement changes the world through [copy2]
      and the child process only. *)
Lemma preserves_segment_in
      (subprocess_run : list string -> filesystem -> outcome Z * filesystem)
      (json_loads : string -> option pyval) (data_in : payload)
      (temp : string) :
    (forall src, preserves R (copy2 src temp)) ->
    preserves R (check_output subprocess_run (totalseg_argv temp)) ->
    preserves R (segment_in subprocess_run json_loads data_in temp).
  Proof.
    intros Hcopy Hexe. unfold segment_in, copy_instances.
    apply preserves_pbind.
    - apply preserves_pbind; [apply preserves_lift|].
      intros instances. apply preserves_for_each. intros f. apply Hcopy.
    - intros _. now apply preserves_run_totalsegmentator.
  Qed.
End Preservation.

Lemma grows_copy2 (src d : string) : preserves grows (copy2 src d).
Proof.
  intros w r w' H. unfold copy2 in H.
  destruct (decide (src ∈ dirs (fs w))); [injection H as <- <-; reflexivity|].
  destruct (files (fs w) !! src) as [content|]; injection H as <- <-;
    [eexists; reflexivity | reflexivity].
Qed.

Lemma grows_check_output
    (subprocess_run : list string -> filesystem -> outcome Z * filesystem)
    (argv : list string) :
  preserves grows (check_output subprocess_run argv).
Proof.
  intros w r w' H. unfold check_output in H.
  destruct (subprocess_run argv (fs w)) as [[status|e] f'].
  - destruct (status =? 0); injection H as <- <-; eexists; reflexivity.
  - injection H as <- <-. eexists; reflexivity.
Qed.

(** [copy2] into [d] writes below [d] only. *)
Lemma keeps_copy2 (p src d : string) :
  ~ inside d p -> preserves (keeps p) (copy2 src d).
Proof.
  intros Hp w r w' H. unfold copy2 in H.
  destruct (decide (src ∈ dirs (fs w))); [injection H as <- <-; reflexivity|].
  destruct (files (fs w) !! src) as [content|];
    injection H as <- <-; [|reflexivity].
  split; simpl; [|reflexivity].
  apply lookup_insert_ne. intros <-. apply Hp. right. apply under_join.
Qed.

Lemma keeps_check_output (p : string)
    (subprocess_run : list string -> filesystem -> outcome Z * filesystem)
    (argv : list string) :
  leaves_alone subprocess_run argv p ->
  preserves (keeps p) (check_output subprocess_run argv).
Proof.
  intros Hexe w r w' H. unfold check_output in H.
  pose proof (Hexe (fs w)) as Hsame.
  destruct (subprocess_run argv (fs w)) as [[status|e] f'].
  - destruct (status =? 0); injection H as <- <-; exact Hsame.
  - injection H as <- <-. exact Hsame.
Qed.

(** ** The segmentation stage *)

Section SegmentationStage.
Variable mkdtemp : filesystem -> string.
Variable subprocess_run : list string -> filesystem -> outcome Z * filesystem.
Variable json_loads : string -> option pyval.

  (** [compute] is the block of the [with] statement between entry and
      cleanup, followed by the emission when the block returned. *)
Lemma Totalsegmentator_compute_eq (op_input : list (string * payload))
      (w w0 : world) (r0 : outcome pyval) :
    segment_in subprocess_run json_loads
      (receive op_input "study_selected_series_list")
      (mkdtemp (fs w)) (tmp_enter (mkdtemp (fs w)) w) = (r0, w0) ->
    Totalsegmentator_compute mkdtemp subprocess_run json_loads op_input w
    = (match r0 with
       | Return report => Return [("report_dict", PyValue report)]
       | Raise e => Raise e
       end,
       tmp_cleanup (mkdtemp (fs w)) w0).
  Proof.
    intros H. unfold Totalsegmentator_compute, pbind, with_TemporaryDirectory.
    rewrite H. now destruct r0.
  Qed.

Lemma run_totalsegmentator_failure (temp : string) (w : world) (e : exn) :
    segmentation_failure subprocess_run json_loads temp (fs w) e ->
    exists w', run_totalsegmentator subprocess_run json_loads temp w = (Raise e, w').
  Proof.
    intros H. rewrite run_totalsegmentator_eq. unfold pbind, check_output.
    destruct H as [e f' H | status f' H Hs | f' H Hf | f' text H Hf Hj];
      rewrite H.
    - eexists; reflexivity.
    - apply Z.eqb_neq in Hs. rewrite Hs. eexists; reflexivity.
    - simpl. unfold open_read. simpl. rewrite Hf. eexists; reflexivity.
    - simpl. unfold open_read. simpl. rewrite Hf.
      unfold json_load. rewrite Hj. eexists; reflexivity.
  Qed.

  (** When the instances were copied and the external segmentation fails,
      [compute] raises, and the temporary area is cleaned up. *)
Lemma Totalsegmentator_compute_failure (sel : list StudySelectedSeries)
      (w wc : world) (e : exn) :
    let op_input :=
      [("study_selected_series_list", StudySelectedSeriesList sel)] in
    let temp := mkdtemp (fs w) in
    copy_instances (StudySelectedSeriesList sel) temp (tmp_enter temp w)
    = (Return tt, wc) ->
    segmentation_failure subprocess_run json_loads temp (fs wc) e ->
    exists w0,
      Totalsegmentator_compute mkdtemp subprocess_run json_loads op_input w
      = (Raise e, tmp_cleanup temp w0).
  Proof.
    intros op_input temp Hcopy Hfail.
    destruct (run_totalsegmentator_failure temp wc e Hfail) as [w0 Hrun].
    exists w0.
    rewrite (Totalsegmentator_compute_eq op_input w w0 (Raise e)); [reflexivity|].
    unfold segment_in. simpl receive.
    now rewrite (pbind_run _ _ _ _ _ Hcopy).
  Qed.
End SegmentationStage.

(** ** The executor on the composed application *)

Lemma run_graph_step (g : graph) (fuel : nat) (st : exec_state) (op : operator)
    (inputs : list (string * payload)) (mb : list message) :
  find (eligible g st) (operators g) = Some op ->
  take_inputs g op (mailbox st) = (inputs, mb) ->
  run_graph g (S fuel) st
  = match op_compute op inputs
            (log (EvCompute (op_name op) inputs) (the_world st)) with
    | (Raise e, w') =>
        (Aborted (op_name op) e,
         {| mailbox := mb; executed := executed st ++ [op_name op];
            the_world := w' |})
    | (Return emitted, w') =>
        run_graph g fuel
          {| mailbox := mb ++ deliver g op emitted;
             executed := executed st ++ [op_name op]; the_world := w' |}
    end.
Proof. intros H1 H2. cbn [run_graph]. rewrite H1, H2. reflexivity. Qed.

Lemma run_graph_done (g : graph) (fuel : nat) (st : exec_state) :
  find (eligible g st) (operators g) = None ->
  run_graph g (S fuel) st = (Completed, st).
Proof. intros H. cbn [run_graph]. now rewrite H. Qed.

Section ComposedRun.
Variable mkdtemp : filesystem -> string.
Variable subprocess_run : list string -> filesystem -> outcome Z * filesystem.
Variable json_loads : string -> option pyval.
Variable float_of_str : string -> option float.
Variable current_date : string.
Variable doc_build : list flowable -> outcome string.
Variable load_data_to_studies :
    string -> filesystem -> outcome (list DICOMStudy) * filesystem.
Variable selector_filter :
    option string -> list DICOMStudy -> outcome (list StudySelectedSeries).
Variable write_encapsulated_pdf :
    string -> ModelInfo -> list (string * string) ->
    payload -> payload -> filesystem -> outcome unit * filesystem.
Variables sample_data_path output_data_path : string.

Local Abbreviation G :=
    (compose mkdtemp subprocess_run json_loads float_of_str current_date
       doc_build load_data_to_studies selector_filter write_encapsulated_pdf
       sample_data_path output_data_path).
Local Abbreviation seg_compute :=
    (Totalsegmentator_compute mkdtemp subprocess_run json_loads).
Local Abbreviation model_info :=
    {| creator := "J. Wasserthal"; model_name := "TotalSegmentator";
       model_version := "0.0.1"; model_uid := "" |}.
Local Abbreviation custom_tags :=
    [("SeriesDescription", "TotalSegmentator Report: Organ volumes")].
Local Abbreviation msg s p v :=
    {| msg_stage := s; msg_port := p; msg_value := v |}.

  (** The graph [compose] builds: five operators, five edges. *)
Lemma compose_shape :
    G = {| operators :=
             [ DICOMDataLoaderOperator load_data_to_studies (Some 1%nat)
                 sample_data_path "dicom_loader";
               DICOMSeriesSelectorOperator selector_filter None "series_selector";
               TotalsegmentatorOperator mkdtemp subprocess_run json_loads
                 "totalseg_op";
               TotalsegmentatorPDFOperator float_of_str current_date doc_build
                 "totalseg_pdf_op";
               DICOMEncapsulatedPDFWriterOperator write_encapsulated_pdf
                 "pdf_dcm_encapsulator" output_data_path model_info custom_tags ];
           flows :=
             [ {| producer := "dicom_loader"; out_port := "dicom_study_list";
                  consumer := "series_selector"; in_port := "dicom_study_list" |};
               {| producer := "series_selector";
                  out_port := "study_selected_series_list";
                  consumer := "totalseg_op";
                  in_port := "study_selected_series_list" |};
               {| producer := "totalseg_op"; out_port := "report_dict";
                  consumer := "totalseg_pdf_op"; in_port := "report_dict" |};
               {| producer := "series_selector";
                  out_port := "study_selected_series_list";
                  consumer := "pdf_dcm_encapsulator";
                  in_port := "study_selected_series_list" |};
               {| producer := "totalseg_pdf_op"; out_port := "pdf_bytes";
                  consumer := "pdf_dcm_encapsulator"; in_port := "pdf_bytes" |} ]
        |}.
  Proof.
    lazy -[Totalsegmentator_compute TotalsegmentatorPDF_compute pbind ext lift
           pure throw receive].
    reflexivity.
  Qed.

Ltac schedule :=
    lazy -[Totalsegmentator_compute TotalsegmentatorPDF_compute pbind ext lift
           pure throw receive log set_fs];
    reflexivity.

Ltac step op inputs mb :=
    rewrite compose_shape;
    rewrite (run_graph_step _ _ _ op inputs mb); [ | schedule | schedule ];
    rewrite <- compose_shape.

  (** The loader runs first, once. *)
Lemma run_loader (fuel : nat) (w : world) (studies : list DICOMStudy)
      (f1 : filesystem) :
    load_data_to_studies sample_data_path (fs w) = (Return studies, f1) ->
    run_graph G (S fuel) {| mailbox := []; executed := []; the_world := w |}
    = run_graph G fuel
        {| mailbox := [msg "series_selector" "dicom_study_list" (StudyList studies)];
           executed := ["dicom_loader"];
           the_world := set_fs f1 (log (EvCompute "dicom_loader" []) w) |}.
  Proof.
    intros H.
    step (DICOMDataLoaderOperator load_data_to_studies (Some 1%nat)
            sample_data_path "dicom_loader")
         (@nil (string * payload)) (@nil message).
    cbn [op_compute op_name DICOMDataLoaderOperator the_world].
    unfold pbind, ext; cbn [fs log]. rewrite H. cbn [pure]. f_equal.
  Qed.

  (** Then the selector, built without rules. *)
Lemma run_selector (fuel : nat) (w : world) (studies : list DICOMStudy)
      (sel : list StudySelectedSeries) :
    selector_filter None studies = Return sel ->
    run_graph G (S fuel)
      {| mailbox := [msg "series_selector" "dicom_study_list" (StudyList studies)];
         executed := ["dicom_loader"]; the_world := w |}
    = run_graph G fuel
        {| mailbox :=
             [ msg "totalseg_op" "study_selected_series_list"
                 (StudySelectedSeriesList sel);
               msg "pdf_dcm_encapsulator" "study_selected_series_list"
                 (StudySelectedSeriesList sel) ];
           executed := ["dicom_loader"; "series_selector"];
           the_world :=
             log (EvCompute "series_selector"
                    [("dicom_study_list", StudyList studies)]) w |}.
  Proof.
    intros H.
    step (DICOMSeriesSelectorOperator selector_filter None "series_selector")
         [("dicom_study_list", StudyList studies)] (@nil message).
    cbn [op_compute op_name DICOMSeriesSelectorOperator the_world receive
         String.eqb Ascii.eqb Bool.eqb].
    unfold pbind, lift. rewrite H. cbn [pure]. f_equal.
  Qed.

  (** The segmentation stage is next; an exception it raises ends the
      run. *)
Lemma run_segmentation_raise (fuel : nat) (w w' : world)
      (sel : list StudySelectedSeries) (e : exn) :
    let inputs :=
      [("study_selected_series_list", StudySelectedSeriesList sel)] in
    seg_compute inputs (log (EvCompute "totalseg_op" inputs) w) = (Raise e, w') ->
    run_graph G (S fuel)
      {| mailbox :=
           [ msg "totalseg_op" "study_selected_series_list"
               (StudySelectedSeriesList sel);
             msg "pdf_dcm_encapsulator" "study_selected_series_list"
               (StudySelectedSeriesList sel) ];
         executed := ["dicom_loader"; "series_selector"]; the_world := w |}
    = (Aborted "totalseg_op" e,
       {| mailbox :=
            [ msg "pdf_dcm_encapsulator" "study_selected_series_list"
                (StudySelectedSeriesList sel) ];
          executed := ["dicom_loader"; "series_selector"; "totalseg_op"];
          the_world := w' |}).
  Proof.
    intros inputs H.
    step (TotalsegmentatorOperator mkdtemp subprocess_run json_loads "totalseg_op")
         inputs
         [ msg "pdf_dcm_encapsulator" "study_selected_series_list"
             (StudySelectedSeriesList sel) ].
    cbn [op_compute op_name TotalsegmentatorOperator the_world].
    fold inputs. rewrite H. reflexivity.
  Qed.

Lemma run_segmentation_return (fuel : nat) (w w' : world)
      (sel : list StudySelectedSeries) (report : pyval) :
    let inputs :=
      [("study_selected_series_list", StudySelectedSeriesList sel)] in
    seg_compute inputs (log (EvCompute "totalseg_op" inputs) w)
    = (Return [("report_dict", PyValue report)], w') ->
    run_graph G (S fuel)
      {| mailbox :=
           [ msg "totalseg_op" "study_selected_series_list"
               (StudySelectedSeriesList sel);
             msg "pdf_dcm_encapsulator" "study_selected_series_list"
               (StudySelectedSeriesList sel) ];
         executed := ["dicom_loader"; "series_selector"]; the_world := w |}
    = run_graph G fuel
        {| mailbox :=
             [ msg "pdf_dcm_encapsulator" "study_selected_series_list"
                 (StudySelectedSeriesList sel);
               msg "totalseg_pdf_op" "report_dict" (PyValue report) ];
           executed := ["dicom_loader"; "series_selector"; "totalseg_op"];
           the_world := w' |}.
  Proof.
    intros inputs H.
    step (TotalsegmentatorOperator mkdtemp subprocess_run json_loads "totalseg_op")
         inputs
         [ msg "pdf_dcm_encapsulator" "study_selected_series_list"
             (StudySelectedSeriesList sel) ].
    cbn [op_compute op_name TotalsegmentatorOperator the_world].
    fold inputs. rewrite H. f_equal.
  Qed.

  (** The PDF stage emits what the formatter returned. *)
Lemma TotalsegmentatorPDF_compute_emits (report : pyval)
      (pdf_bytes : option string) (w : world) :
    generate_pdf_report float_of_str current_date doc_build report
    = Return pdf_bytes ->
    TotalsegmentatorPDF_compute float_of_str current_date doc_build
      [("report_dict", PyValue report)] w
    = (Return [("pdf_bytes", pdf_payload pdf_bytes)], w).
  Proof.
    intros H. unfold TotalsegmentatorPDF_compute, pbind, lift.
    cbn [receive String.eqb Ascii.eqb Bool.eqb]. now rewrite H.
  Qed.

Lemma run_pdf (fuel : nat) (w : world) (sel : list StudySelectedSeries)
      (report : pyval) (pdf_bytes : option string) :
    generate_pdf_report float_of_str current_date doc_build report
    = Return pdf_bytes ->
    run_graph G (S fuel)
      {| mailbox :=
           [ msg "pdf_dcm_encapsulator" "study_selected_series_list"
               (StudySelectedSeriesList sel);
             msg "totalseg_pdf_op" "report_dict" (PyValue report) ];
         executed := ["dicom_loader"; "series_selector"; "totalseg_op"];
         the_world := w |}
    = run_graph G fuel
        {| mailbox :=
             [ msg "pdf_dcm_encapsulator" "study_selected_series_list"
                 (StudySelectedSeriesList sel);
               msg "pdf_dcm_encapsulator" "pdf_bytes" (pdf_payload pdf_bytes) ];
           executed := ["dicom_loader"; "series_selector"; "totalseg_op";
                        "totalseg_pdf_op"];
           the_world :=
             log (EvCompute "totalseg_pdf_op" [("report_dict", PyValue report)])
               w |}.
  Proof.
    intros H.
    step (TotalsegmentatorPDFOperator float_of_str current_date doc_build
            "totalseg_pdf_op")
         [("report_dict", PyValue report)]
         [ msg "pdf_dcm_encapsulator" "study_selected_series_list"
             (StudySelectedSeriesList sel) ].
    cbn [op_compute op_name TotalsegmentatorPDFOperator the_world].
    rewrite (TotalsegmentatorPDF_compute_emits _ _ _ H). f_equal.
  Qed.

  (** The writer runs when both its inputs have arrived, and the run is
      complete after it. *)
Lemma run_writer (fuel : nat) (w : world) (sel : list StudySelectedSeries)
      (pdf : payload) (f' : filesystem) :
    let inputs :=
      [ ("study_selected_series_list", StudySelectedSeriesList sel);
        ("pdf_bytes", pdf) ] in
    write_encapsulated_pdf output_data_path model_info custom_tags
      (StudySelectedSeriesList sel) pdf (fs w) = (Return tt, f') ->
    run_graph G (S (S fuel))
      {| mailbox :=
           [ msg "pdf_dcm_encapsulator" "study_selected_series_list"
               (StudySelectedSeriesList sel);
             msg "pdf_dcm_encapsulator" "pdf_bytes" pdf ];
         executed := ["dicom_loader"; "series_selector"; "totalseg_op";
                      "totalseg_pdf_op"];
         the_world := w |}
    = (Completed,
       {| mailbox := [];
          executed := ["dicom_loader"; "series_selector"; "totalseg_op";
                       "totalseg_pdf_op"; "pdf_dcm_encapsulator"];
          the_world :=
            set_fs f' (log (EvCompute "pdf_dcm_encapsulator" inputs) w) |}).
  Proof.
    intros inputs H.
    step (DICOMEncapsulatedPDFWriterOperator write_encapsulated_pdf
            "pdf_dcm_encapsulator" output_data_path model_info custom_tags)
         inputs (@nil message).
    cbn [op_compute op_name DICOMEncapsulatedPDFWriterOperator the_world].
    change (receive inputs "study_selected_series_list")
      with (StudySelectedSeriesList sel).
    change (receive inputs "pdf_bytes") with pdf.
    unfold pbind, ext; cbn [fs log]. rewrite H. cbn [pure].
    rewrite compose_shape. rewrite run_graph_done; [reflexivity|].
    lazy -[Totalsegmentator_compute TotalsegmentatorPDF_compute pbind ext lift
           pure throw receive log set_fs].
    reflexivity.
  Qed.
End ComposedRun.

(** ** The pipeline as a whole *)

(** C2: [compose] builds the selector with its name alone: the one operator
    of class [DICOMSeriesSelectorOperator] in the graph is the one without a
    [rules] argument, [Rules_Text] is handed to no operator, and what the
    stage emits for the studies it receives is what the selector of the
    framework returns without rules. *)
Theorem C2_selector_built_without_rules :
  forall (mkdtemp : filesystem -> string)
         (subprocess_run : list string -> filesystem -> outcome Z * filesystem)
         (json_loads : string -> option pyval)
         (float_of_str : string -> option float) (current_date : string)
         (doc_build : list flowable -> outcome string)
         (load_data_to_studies :
            string -> filesystem -> outcome (list DICOMStudy) * filesystem)
         (selector_filter :
            option string -> list DICOMStudy -> outcome (list StudySelectedSeries))
         (write_encapsulated_pdf :
            string -> ModelInfo -> list (string * string) ->
            payload -> payload -> filesystem -> outcome unit * filesystem)
         (sample_data_path output_data_path : string),
    filter (fun o => String.eqb (op_class o) "DICOMSeriesSelectorOperator")
      (operators
         (compose mkdtemp subprocess_run json_loads float_of_str current_date
            doc_build load_data_to_studies selector_filter
            write_encapsulated_pdf sample_data_path output_data_path))
    = [DICOMSeriesSelectorOperator selector_filter None "series_selector"]
    /\ forall studies w,
         op_compute
           (DICOMSeriesSelectorOperator selector_filter None "series_selector")
           [("dicom_study_list", StudyList studies)] w
         = (match selector_filter None studies with
            | Return sel =>
                Return [("study_selected_series_list",
                         StudySelectedSeriesList sel)]
            | Raise e => Raise e
            end, w).
Proof.
  intros. split.
  - rewrite compose_shape. reflexivity.
  - intros studies w.
    cbn [op_compute DICOMSeriesSelectorOperator receive String.eqb Ascii.eqb
         Bool.eqb].
    unfold pbind, lift. now destruct (selector_filter None studies).
Qed.

(** In the sample run, where the study holds a CT series and an MR series
    and the selector without rules keeps every series, the segmentation
    stage receives both. *)
Example sample_run_selects_both_series :
  exists st,
    sample_run (exe_writing spleen_json 0) render_text 2 = (OutOfFuel, st)
    /\ executed st = ["dicom_loader"; "series_selector"]
    /\ In {| msg_stage := "totalseg_op";
             msg_port := "study_selected_series_list";
             msg_value := StudySelectedSeriesList sample_selected |}
          (mailbox st)
    /\ map (fun s => length (selected_series s)) sample_selected = [2%nat].
Proof.
  eexists. split; [vm_compute; reflexivity|].
  split; [reflexivity|]. split; [now left | reflexivity].
Qed.

(** C8: in a run in which the loader and the selector return and the
    instances are copied, a segmentation that fails (the launch fails, the
    executable exits with a status other than zero, the statistics file is
    missing, or its text is not JSON) makes the segmentation stage raise;
    the run is aborted at that stage, after the loader and the selector
    only; nothing waits on [report_dict], and the one message left is the
    selection addressed to the embedding stage, which never ran. *)
Theorem C8_segmentation_failure_aborts_run :
  forall (mkdtemp : filesystem -> string)
         (subprocess_run : list string -> filesystem -> outcome Z * filesystem)
         (json_loads : string -> option pyval)
         (float_of_str : string -> option float) (current_date : string)
         (doc_build : list flowable -> outcome string)
         (load_data_to_studies :
            string -> filesystem -> outcome (list DICOMStudy) * filesystem)
         (selector_filter :
            option string -> list DICOMStudy -> outcome (list StudySelectedSeries))
         (write_encapsulated_pdf :
            string -> ModelInfo -> list (string * string) ->
            payload -> payload -> filesystem -> outcome unit * filesystem)
         (sample_data_path output_data_path : string) (fuel : nat)
         (w wc : world) (studies : list DICOMStudy) (f1 : filesystem)
         (sel : list StudySelectedSeries) (e : exn),
    (3 <= fuel)%nat ->
    load_data_to_studies sample_data_path (fs w) = (Return studies, f1) ->
    selector_filter None studies = Return sel ->
    let seg_inputs :=
      [("study_selected_series_list", StudySelectedSeriesList sel)] in
    let w2 :=
      log (EvCompute "totalseg_op" seg_inputs)
        (log (EvCompute "series_selector"
                [("dicom_study_list", StudyList studies)])
           (set_fs f1 (log (EvCompute "dicom_loader" []) w))) in
    let temp := mkdtemp (fs w2) in
    copy_instances (StudySelectedSeriesList sel) temp (tmp_enter temp w2)
    = (Return tt, wc) ->
    segmentation_failure subprocess_run json_loads temp (fs wc) e ->
    exists w',
      Totalsegmentator_compute mkdtemp subprocess_run json_loads seg_inputs w2
      = (Raise e, w')
      /\ App_run mkdtemp subprocess_run json_loads float_of_str current_date
           doc_build load_data_to_studies selector_filter
           write_encapsulated_pdf fuel sample_data_path output_data_path w
         = (Aborted "totalseg_op" e,
            {| mailbox :=
                 [ {| msg_stage := "pdf_dcm_encapsulator";
                      msg_port := "study_selected_series_list";
                      msg_value := StudySelectedSeriesList sel |} ];
               executed := ["dicom_loader"; "series_selector"; "totalseg_op"];
               the_world := w' |}).
Proof.
  intros mk run json fos date build load self writer inp outp fuel w wc studies
         f1 sel e Hfuel Hload Hsel seg_inputs w2 temp Hcopy Hfail.
  destruct (Totalsegmentator_compute_failure mk run json sel w2 wc e Hcopy Hfail)
    as [w0 Hseg].
  exists (tmp_cleanup temp w0). split; [exact Hseg|].
  do 3 (destruct fuel as [|fuel]; [lia|]). clear Hfuel.
  unfold App_run.
  rewrite (run_loader _ _ _ _ _ _ _ _ _ _ _ _ _ _ _ Hload).
  rewrite (run_selector _ _ _ _ _ _ _ _ _ _ _ _ _ _ _ Hsel).
  now rewrite (run_segmentation_raise _ _ _ _ _ _ _ _ _ _ _ _ _ _ _ _ Hseg).
Qed.

(** C8, at the sample run with an executable that exits with status 2. *)
Lemma C8_nonzero_exit_witness :
  exists w',
    sample_run (exe_exiting 2) render_text 3
    = (Aborted "totalseg_op" (CalledProcessError 2),
       {| mailbox :=
            [ {| msg_stage := "pdf_dcm_encapsulator";
                 msg_port := "study_selected_series_list";
                 msg_value := StudySelectedSeriesList sample_selected |} ];
          executed := ["dicom_loader"; "series_selector"; "totalseg_op"];
          the_world := w' |}).
Proof.
  pose proof
    (fun wc Hcopy Hfail =>
       C8_segmentation_failure_aborts_run sample_mkdtemp (exe_exiting 2)
         sample_json_loads no_numeric_strings "2024-05-01 12:00:00" render_text
         sample_loader select_every_series sample_writer "/input" "/output" 3
         sample_world wc [sample_study] sample_fs sample_selected
         (CalledProcessError 2) (le_n 3) eq_refl eq_refl Hcopy Hfail) as H.
  edestruct H as [w' [_ Hrun]].
  - vm_compute. reflexivity.
  - eapply exit_nonzero; [reflexivity | discriminate].
  - exists w'. exact Hrun.
Defined.

(** The same run when the executable exits with status zero and leaves no
    statistics file, and when the file it leaves is not JSON. *)
Example sample_run_missing_or_malformed_statistics :
  fst (sample_run (exe_exiting 0) render_text 6)
  = Aborted "totalseg_op" (FileNotFoundError "/tmp/tmpk3v9/out/statistics.json")
  /\ fst (sample_run (exe_writing "{" 0) render_text 6)
     = Aborted "totalseg_op" JSONDecodeError.
Proof. split; vm_compute; reflexivity. Qed.

(** The sample invocation, on the path that returns and on a path that
    raises: the statistics are emitted or the exception leaves the stage,
    and the filesystem is the one the invocation started with. *)
Example sample_invocation_restores_filesystem :
  let input :=
    [("study_selected_series_list", StudySelectedSeriesList sample_selected)] in
  let ok :=
    Totalsegmentator_compute sample_mkdtemp (exe_writing spleen_json 0)
      sample_json_loads input sample_world in
  let ko :=
    Totalsegmentator_compute sample_mkdtemp (exe_exiting 2)
      sample_json_loads input sample_world in
  fst ok = Return [("report_dict", PyValue spleen_statistics)]
  /\ fs (snd ok) = sample_fs
  /\ history (snd ok)
     = [ EvMkdtemp "/tmp/tmpk3v9";
         EvCopy "/input/ct/1.dcm" "/tmp/tmpk3v9/1.dcm";
         EvCopy "/input/ct/2.dcm" "/tmp/tmpk3v9/2.dcm";
         EvExec ["TotalSegmentator"; "-f"; "--roi_subset"; "spleen";
                 "--statistics"; "--body_seg"; "-i"; "/tmp/tmpk3v9"; "-o";
                 "/tmp/tmpk3v9/out"];
         EvRmtree "/tmp/tmpk3v9" ]
  /\ fst ko = Raise (CalledProcessError 2)
  /\ fs (snd ko) = sample_fs.
Proof. repeat split; vm_compute; reflexivity. Qed.

(** * Further properties of the code *)

(** ** The formatter on inputs without overflow *)

Section FormatterReport.
Variable float_of_str : string -> option float.

(** One iteration, by the cell it writes. *)
Lemma table_entry_expected (organ : string) (details : pyval) (c : string)
    (rows : list (list string)) (n : Z) :
  expected_cell float_of_str details = Some c ->
  table_entry float_of_str organ details (rows, n)
  = Return (rows ++ [[capitalize organ; c]],
            if is_usable float_of_str details then n + 1 else n).
Proof.
  unfold expected_cell, table_entry, is_usable.
  destruct (isinstance_dict details && dict_contains "volume" details).
  - destruct (py_float float_of_str (dict_getitem details "volume")) as [x|e];
      cbn [try_except bind andb].
    + now intros [= <-].
    + destruct (is_ValueError_or_TypeError e); [|discriminate].
      now intros [= <-].
  - now intros [= <-].
Qed.

(** The loop is a map over the entries, and it counts the usable ones. *)
Lemma for_items_map (items : list (string * pyval)) :
  forall (rows : list (list string)) (n : Z),
    Forall (fun kv => expected_cell float_of_str kv.2 <> None) items ->
    for_items float_of_str items (rows, n)
    = Return (rows ++ map (row_of float_of_str) items,
              n + Z.of_nat (count_usable float_of_str items)).
Proof.
  induction items as [|[organ details] rest IH]; intros rows n Hall.
  - cbn. now rewrite app_nil_r, Z.add_0_r.
  - inversion Hall as [|kv l Hc Hrest]; subst. cbn [snd] in Hc.
    destruct (expected_cell float_of_str details) as [c|] eqn:E; [|congruence].
    cbn [for_items]. rewrite (table_entry_expected _ _ _ _ _ E). cbn [bind].
    rewrite (IH _ _ Hrest). unfold count_usable, row_of. cbn [map List.filter fst snd].
    rewrite E, <- app_assoc. cbn [app]. f_equal. f_equal.
    destruct (is_usable float_of_str details); cbn [length]; lia.
Qed.
End FormatterReport.

(** ** The loop, entry by entry *)

Lemma float_of_int_raises (k : Z) (e : exn) :
  float_of_int k = Raise e -> e = OverflowError.
Proof.
  unfold float_of_int.
  destruct (binary_normalize 53 1024 k 0 false); now intros [= <-].
Qed.

(** What [float] does, by the kind of its argument. *)
Lemma py_float_handled (float_of_str : string -> option float) (v : pyval)
    (e : exn) :
  py_float float_of_str v = Raise e ->
  is_ValueError_or_TypeError e = true ->
  v = PNone \/ (exists l, v = PList l) \/ (exists d, v = PDict d)
  \/ (exists s, v = PStr s /\ float_of_str s = None).
Proof.
  destruct v as [|b|k|f|s|l|d]; cbn [py_float]; intros H He.
  - now left.
  - discriminate.
  - apply float_of_int_raises in H. subst e. discriminate.
  - discriminate.
  - right. right. right. exists s. split; [reflexivity|].
    now destruct (float_of_str s).
  - right. left. now exists l.
  - right. right. left. now exists d.
Qed.

Lemma py_float_unhandled (float_of_str : string -> option float) (v : pyval)
    (e : exn) :
  py_float float_of_str v = Raise e ->
  is_ValueError_or_TypeError e = false ->
  e = OverflowError
  /\ exists k, v = PInt k /\ float_of_int k = Raise OverflowError.
Proof.
  destruct v as [|b|k|f|s|l|d]; cbn [py_float]; intros H He;
    try (injection H as <-; discriminate); try discriminate.
  - pose proof (float_of_int_raises _ _ H) as ->. split; [reflexivity|].
    now exists k.
  - destruct (float_of_str s); [discriminate|].
    injection H as <-. discriminate.
Qed.


(** ** What the formatter raises, and what it never renders *)


Lemma story_head_blocks (current_date : string) :
  ~ In (Paragraph empty_input_line normal_style) (story_head current_date).
Proof.
  unfold story_head. cbn [app In].
  intros [H|[H|[H|[H|[]]]]]; discriminate H.
Qed.

(** X4: the line "Input data was empty." is never rendered: the result of
    [generate_pdf_report] does not depend on what the renderer does with a
    document that holds that line, so the branch of lines 89-94 is never
    taken. *)
Theorem X4_empty_input_line_never_rendered :
  forall (float_of_str : string -> option float) (current_date : string)
         (data : pyval) (build1 build2 : list flowable -> outcome string),
    (forall story,
        ~ In (Paragraph empty_input_line normal_style) story ->
        build1 story = build2 story) ->
    generate_pdf_report float_of_str current_date build1 data
    = generate_pdf_report float_of_str current_date build2 data.
Proof.
  intros fos date data build1 build2 H. unfold generate_pdf_report.
  destruct (negb (isinstance_dict data) || negb (truthy data)) eqn:G;
    [reflexivity|].
  destruct data as [| | | | | |items]; try discriminate.
  destruct items as [|kv rest]; [discriminate|]. cbn [dict_items].
  destruct (for_items fos (kv :: rest) ([table_header], 0))
    as [[rows n]|e'] eqn:E; cbn [bind]; [|reflexivity].
  replace (0 <? py_len (PDict (kv :: rest))) with true
    by (symmetry; apply Z.ltb_lt; simpl; lia).
  rewrite andb_true_r. destruct (n =? 0).
  - rewrite H; [reflexivity|].
    intros Hin. apply in_app_or in Hin as [Hin|[Hin|[]]].
    + exact (story_head_blocks _ Hin).
    + discriminate Hin.
  - rewrite H; [reflexivity|].
    intros Hin. apply in_app_or in Hin as [Hin|[Hin|[]]]; [|discriminate Hin].
    apply in_app_or in Hin as [Hin|[Hin|[]]]; [|discriminate Hin].
    exact (story_head_blocks _ Hin).
Qed.

(** X4, with the renderer that refuses the documents holding that line. *)
Lemma X4_strict_renderer_witness :
  generate_pdf_report no_numeric_strings "2024-05-01 12:00:00" render_text
    intensity_only
  = generate_pdf_report no_numeric_strings "2024-05-01 12:00:00"
      render_text_strict intensity_only.
Proof.
  apply (X4_empty_input_line_never_rendered no_numeric_strings
           "2024-05-01 12:00:00" intensity_only render_text
           render_text_strict).
  intros story Hnot. unfold render_text_strict.
  destruct (existsb is_empty_input_block story) eqn:E; [|reflexivity].
  exfalso. apply Hnot. apply existsb_exists in E as (b & Hin & Hb).
  destruct b as [text [name al]| |]; try discriminate Hb.
  cbn [is_empty_input_block style_name alignment] in Hb.
  apply andb_prop in Hb as [Hb Hal]. apply andb_prop in Hb as [Ht Hn].
  apply String.eqb_eq in Ht, Hn. apply Z.eqb_eq in Hal. subst.
  exact Hin.
Defined.

(** ** The segmentation stage: when it returns *)

Lemma pbind_Return {A B : Type} (c : prog A) (k : A -> prog B) (w w' : world)
    (b : B) :
  pbind c k w = (Return b, w') ->
  exists a w1, c w = (Return a, w1) /\ k a w1 = (Return b, w').
Proof.
  unfold pbind. destruct (c w) as [[a|e] w1]; [eauto | discriminate].
Qed.

Lemma run_totalsegmentator_Return
    (subprocess_run : list string -> filesystem -> outcome Z * filesystem)
    (json_loads : string -> option pyval) (temp : string) (w w' : world)
    (v : pyval) :
  run_totalsegmentator subprocess_run json_loads temp w = (Return v, w')
  <-> exists f' text,
        subprocess_run (totalseg_argv temp) (fs w) = (Return 0, f')
        /\ files f' !! statistics_path temp = Some text
        /\ json_loads text = Some v
        /\ w' = log (EvExec (totalseg_argv temp)) (set_fs f' w).
Proof.
  rewrite run_totalsegmentator_eq. unfold pbind, check_output, open_read, json_load.
  destruct (subprocess_run (totalseg_argv temp) (fs w)) as [[status|e] f'] eqn:E.
  - destruct (status =? 0) eqn:Es.
    + apply Z.eqb_eq in Es. subst status. cbn [fs log set_fs].
      destruct (files f' !! statistics_path temp) as [text|] eqn:Ef.
      * destruct (json_loads text) as [v'|] eqn:Ej; unfold pure, throw.
        -- split.
           ++ intros [= <- <-]. now exists f', text.
           ++ intros (f'' & text' & [= <-] & Ht & Hj & ->).
              rewrite Ef in Ht. injection Ht as <-. congruence.
        -- split; [discriminate|].
           intros (f'' & text' & [= <-] & Ht & Hj & _).
           rewrite Ef in Ht. injection Ht as <-. congruence.
      * split; [discriminate|].
        intros (f'' & text' & [= <-] & Ht & _). congruence.
    + split; [discriminate|].
      intros (f'' & text' & [= -> _] & _). discriminate.
  - split; [discriminate|]. intros (f'' & text' & H & _). discriminate.
Qed.

(** X5: [compute] returns exactly when the instances were copied, the
    executable exited with status zero, the statistics file exists below
    the output directory and its text is JSON; what it then emits is the
    parsed value, once, on [report_dict], and the world it leaves is the
    one after the executable, with the temporary area removed. *)
Theorem X5_segmentation_returns_iff :
  forall (mkdtemp : filesystem -> string)
         (subprocess_run : list string -> filesystem -> outcome Z * filesystem)
         (json_loads : string -> option pyval)
         (op_input : list (string * payload)) (w w' : world)
         (emitted : list (string * payload)),
    let temp := mkdtemp (fs w) in
    Totalsegmentator_compute mkdtemp subprocess_run json_loads op_input w
    = (Return emitted, w')
    <-> exists wc f' text v,
          copy_instances (receive op_input "study_selected_series_list") temp
            (tmp_enter temp w) = (Return tt, wc)
          /\ subprocess_run (totalseg_argv temp) (fs wc) = (Return 0, f')
          /\ files f' !! statistics_path temp = Some text
          /\ json_loads text = Some v
          /\ emitted = [("report_dict", PyValue v)]
          /\ w' = tmp_cleanup temp
                    (log (EvExec (totalseg_argv temp)) (set_fs f' wc)).
Proof.
  intros mk run json op_input w w' emitted temp.
  destruct (segment_in run json (receive op_input "study_selected_series_list")
              temp (tmp_enter temp w)) as [r0 w0] eqn:E.
  rewrite (Totalsegmentator_compute_eq mk run json op_input w w0 r0 E).
  fold temp. unfold segment_in in E. split.
  - destruct r0 as [v|e]; [|discriminate]. intros [= <- <-].
    apply pbind_Return in E as ([] & wc & Hcopy & Hrun).
    apply run_totalsegmentator_Return in Hrun as (f' & text & Hexe & Hf & Hj & ->).
    now exists wc, f', text, v.
  - intros (wc & f' & text & v & Hcopy & Hexe & Hf & Hj & -> & ->).
    rewrite (pbind_run _ _ _ _ _ Hcopy) in E.
    assert (run_totalsegmentator run json temp wc
            = (Return v, log (EvExec (totalseg_argv temp)) (set_fs f' wc)))
      as Hrun by (apply run_totalsegmentator_Return; now exists f', text).
    rewrite Hrun in E. now injection E as <- <-.
Qed.

(** X5, at the sample invocation. *)
Lemma X5_sample_return_witness :
  exists w',
    Totalsegmentator_compute sample_mkdtemp (exe_writing spleen_json 0)
      sample_json_loads
      [("study_selected_series_list", StudySelectedSeriesList sample_selected)]
      sample_world
    = (Return [("report_dict", PyValue spleen_statistics)], w').
Proof.
  eexists.
  apply (proj2 (X5_segmentation_returns_iff sample_mkdtemp
                  (exe_writing spleen_json 0) sample_json_loads
                  [("study_selected_series_list",
                    StudySelectedSeriesList sample_selected)]
                  sample_world _ _)).
  eexists _, _, spleen_json, spleen_statistics.
  split; [vm_compute; reflexivity|].
  split; [vm_compute; reflexivity|].
  split; [vm_compute; reflexivity|].
  split; [reflexivity|]. split; reflexivity.
Defined.

(** ** The copies of the instances *)

Section Copies.
Variable temp : string.

Local Abbreviation copy_of := (fun f : SOPInstance => copy2 (sop_filename f) temp).
Local Abbreviation copy_event :=
  (fun f : SOPInstance => EvCopy (sop_filename f) (copy_target temp f)).


(** A copy writes its target and nothing else. *)
Lemma copy2_writes (f : SOPInstance) (w w' : world) (r : outcome unit)
    (p : string) :
  copy2 (sop_filename f) temp w = (r, w') ->
  copy_target temp f <> p ->
  files (fs w') !! p = files (fs w) !! p.
Proof.
  unfold copy2, copy_target. intros H Hp.
  destruct (decide (sop_filename f ∈ dirs (fs w)));
    [injection H as <- <-; reflexivity|].
  destruct (files (fs w) !! sop_filename f); injection H as <- <-;
    [|reflexivity].
  cbn [fs log set_fs files]. now apply lookup_insert_ne.
Qed.

Lemma copies_write_targets (l : list SOPInstance) :
  forall (w w' : world) (r : outcome unit) (p : string),
    for_each l copy_of w = (r, w') ->
    (forall g, In g l -> copy_target temp g <> p) ->
    files (fs w') !! p = files (fs w) !! p.
Proof.
  induction l as [|f rest IH]; intros w w' r p H Hp.
  - injection H as <- <-. reflexivity.
  - cbn [for_each] in H. unfold pbind in H.
    destruct (copy2 (sop_filename f) temp w) as [[[]|e] w1] eqn:E.
    + rewrite (IH _ _ _ p H) by (intros g Hg; apply Hp; now right).
      apply (copy2_writes f _ _ _ _ E). apply Hp. now left.
    + injection H as <- <-.
      apply (copy2_writes f _ _ _ _ E). apply Hp. now left.
Qed.

(** A path outside the area is no target. *)
Lemma target_inside (f : SOPInstance) (p : string) :
  ~ inside temp p -> copy_target temp f <> p.
Proof. intros Hp <-. apply Hp. right. apply under_join. Qed.

(** When every source is a file and lies outside the area, all are
    copied, and the directories stay as they are. *)
Lemma copies_succeed (l : list SOPInstance) :
  forall (w : world),
    (forall g, In g l ->
               ~ inside temp (sop_filename g)
               /\ (sop_filename g ∉ dirs (fs w))
               /\ is_Some (files (fs w) !! sop_filename g)) ->
    exists wc,
      for_each l copy_of w = (Return tt, wc)
      /\ history wc = history w ++ map copy_event l
      /\ dirs (fs wc) = dirs (fs w).
Proof.
  induction l as [|f rest IH]; intros w Hl.
  - exists w. split; [reflexivity|]. cbn. now rewrite app_nil_r.
  - destruct (Hl f (or_introl eq_refl)) as (Hout & Hnd & content & Hc).
    cbn [for_each]. unfold pbind.
    assert (copy2 (sop_filename f) temp w
            = (Return tt,
               log (EvCopy (sop_filename f) (copy_target temp f))
                 (set_fs {| files := <[copy_target temp f := content]>
                                       (files (fs w));
                            dirs := dirs (fs w) |} w))) as E.
    { unfold copy2. destruct (decide (sop_filename f ∈ dirs (fs w)));
        [contradiction|]. now rewrite Hc. }
    rewrite E.
    destruct (IH (log (EvCopy (sop_filename f) (copy_target temp f))
                    (set_fs {| files := <[copy_target temp f := content]>
                                          (files (fs w));
                               dirs := dirs (fs w) |} w)))
      as (wc & Hrun & Hhist & Hdirs).
    + intros g Hg. destruct (Hl g (or_intror Hg)) as (Hgo & Hgd & Hgs).
      split; [exact Hgo|]. split; [exact Hgd|]. cbn [fs log set_fs files].
      rewrite lookup_insert_ne; [exact Hgs|]. now apply target_inside.
    + exists wc. split; [exact Hrun|]. split; [|exact Hdirs].
      rewrite Hhist. cbn [history log set_fs map]. now rewrite <- app_assoc.
Qed.

(** After a phase that returned, the target of an instance holds the
    content of its source, unless a later instance has the same target. *)
Lemma copies_content (pre : list SOPInstance) :
  forall (f : SOPInstance) (post : list SOPInstance) (w wc : world),
    for_each (pre ++ f :: post) copy_of w = (Return tt, wc) ->
    (forall g, In g pre -> copy_target temp g <> sop_filename f) ->
    (forall g, In g post -> copy_target temp g <> copy_target temp f) ->
    exists content,
      files (fs w) !! sop_filename f = Some content
      /\ files (fs wc) !! copy_target temp f = Some content.
Proof.
  induction pre as [|g pre IH]; intros f post w wc H Hpre Hpost.
  - cbn [app for_each] in H. unfold pbind in H.
    destruct (copy2 (sop_filename f) temp w) as [[[]|e] w1] eqn:E;
      [|discriminate].
    unfold copy2 in E.
    destruct (decide (sop_filename f ∈ dirs (fs w))); [discriminate|].
    destruct (files (fs w) !! sop_filename f) as [content|]; [|discriminate].
    injection E as <-. exists content. split; [reflexivity|].
    rewrite (copies_write_targets post _ _ _ _ H Hpost).
    cbn [fs log set_fs files]. apply lookup_insert_eq.
  - cbn [app for_each] in H. unfold pbind in H.
    destruct (copy2 (sop_filename g) temp w) as [[[]|e] w1] eqn:E;
      [|discriminate].
    destruct (IH f post w1 wc H) as (content & Hsrc & Htgt).
    + intros g' Hg'. apply Hpre. now right.
    + exact Hpost.
    + exists content. split; [|exact Htgt].
      rewrite <- Hsrc. symmetry.
      apply (copy2_writes g _ _ _ _ E). apply Hpre. now left.
Qed.
End Copies.

(** X7: after a copy phase that returned, the area holds, for each
    instance of the first selected series whose file name no later
    instance shares, a file of that name with the content of the source;
    the sources are assumed to lie outside the area.  When two instances
    have the same file name, the later one is the one kept. *)
Theorem X7_copies_hold_the_sources :
  forall (data_in : payload) (temp : string) (w wc : world)
         (pre post : list SOPInstance) (f : SOPInstance),
    first_series_instances data_in = Return (pre ++ f :: post) ->
    copy_instances data_in temp w = (Return tt, wc) ->
    ~ inside temp (sop_filename f) ->
    (forall g, In g post ->
               basename (sop_filename g) <> basename (sop_filename f)) ->
    exists content,
      files (fs w) !! sop_filename f = Some content
      /\ files (fs wc) !! (temp +:+ "/" +:+ basename (sop_filename f))
         = Some content.
Proof.
  intros data_in temp w wc pre post f Hfirst Hcopy Hout Hpost.
  unfold copy_instances, pbind, lift in Hcopy. rewrite Hfirst in Hcopy.
  apply (copies_content temp pre f post w wc Hcopy).
  - intros g _. now apply target_inside.
  - intros g Hg Heq. apply (Hpost g Hg). unfold copy_target in Heq.
    apply String.app_inj in Heq. now apply String.app_inj in Heq.
Qed.

(** X7, at two instances whose files have the same name: the copy kept is
    that of the second. *)
Lemma X7_same_name_witness :
  exists content,
    files (fs colliding_world) !! "/input/b/1.dcm" = Some content
    /\ files (fs (snd (copy_instances colliding_selection "/tmp/tmpk3v9"
                         colliding_world)))
         !! "/tmp/tmpk3v9/1.dcm" = Some content
    /\ content = "second".
Proof.
  destruct (X7_copies_hold_the_sources colliding_selection "/tmp/tmpk3v9"
              colliding_world
              (snd (copy_instances colliding_selection "/tmp/tmpk3v9"
                      colliding_world))
              [ {| sop_filename := "/input/a/1.dcm" |} ] []
              {| sop_filename := "/input/b/1.dcm" |})
    as (content & Hsrc & Htgt).
  - reflexivity.
  - vm_compute. reflexivity.
  - intros [H|H]; [discriminate H | vm_compute in H; discriminate H].
  - intros g [].
  - exists content. split; [exact Hsrc|]. split; [exact Htgt|].
    vm_compute in Hsrc. now injection Hsrc as <-.
Defined.

(** ** The command line *)

Lemma count_spaces_app (a b : string) :
  count_spaces (a +:+ b) = (count_spaces a + count_spaces b)%nat.
Proof.
  induction a as [|c a IH]; [reflexivity|].
  change (String c a +:+ b) with (String c (a +:+ b)). cbn [count_spaces].
  destruct (Ascii.eqb c " "); now rewrite IH.
Qed.

Lemma length_split_from (s : string) :
  forall cur, length (split_from s cur) = S (count_spaces s).
Proof.
  induction s as [|c s IH]; intros cur; [reflexivity|].
  cbn [split_from count_spaces].
  destruct (Ascii.eqb c " "); cbn [length]; now rewrite IH.
Qed.

(** Splitting a concatenation: the fields of the first part but the last,
    then the second part split from that last field on. *)
Lemma split_from_app (a b : string) :
  forall cur,
    split_from (a +:+ b) cur
    = removelast (split_from a cur)
      ++ split_from b (List.last (split_from a cur) "").
Proof.
  induction a as [|c a IH]; intros cur; [reflexivity|].
  change (String c a +:+ b) with (String c (a +:+ b)). cbn [split_from].
  destruct (Ascii.eqb c " ").
  - rewrite IH.
    assert (split_from a "" <> []) as Hne
      by (destruct a as [|c' a']; cbn [split_from];
          [discriminate | destruct (Ascii.eqb c' " "); [discriminate|];
           intros H; pose proof (length_split_from a' ("" +:+ String c' "")) as L;
           rewrite H in L; discriminate L]).
    destruct (split_from a "") as [|x l] eqn:E; [congruence|]. reflexivity.
  - apply IH.
Qed.

Lemma split_from_no_space (s : string) :
  forall cur, count_spaces s = O -> split_from s cur = [cur +:+ s].
Proof.
  induction s as [|c s IH]; intros cur H.
  - cbn [split_from]. f_equal.
    induction cur as [|x cur IHc]; [reflexivity|].
    change (String x cur +:+ "") with (String x (cur +:+ "")). now rewrite <- IHc.
  - cbn [count_spaces] in H. cbn [split_from].
    destruct (Ascii.eqb c " "); [discriminate|].
    rewrite (IH _ H). f_equal. now rewrite append_assoc.
Qed.

(** X8: the command line handed to the child process has ten arguments
    plus two for every space in the name of the temporary area; when the
    name has no space, the arguments are those of the command of line 81,
    with the area after [-i] and its [out] directory after [-o]. *)
Theorem X8_command_line :
  forall (temp : string),
    length (totalseg_argv temp) = (10 + 2 * count_spaces temp)%nat
    /\ (count_spaces temp = O ->
        totalseg_argv temp
        = [ "TotalSegmentator"; "-f"; "--roi_subset"; "spleen"; "--statistics";
            "--body_seg"; "-i"; temp; "-o"; temp +:+ "/out" ]).
Proof.
  intros temp. unfold totalseg_argv, split_space, totalseg_cmd. split.
  - rewrite length_split_from, !count_spaces_app.
    change (count_spaces
              "TotalSegmentator -f --roi_subset spleen --statistics --body_seg -i ")
      with 7%nat.
    change (count_spaces " -o ") with 2%nat.
    change (count_spaces "/out") with 0%nat. lia.
  - intros H.
    rewrite split_from_app.
    change (removelast
              (split_from
                 "TotalSegmentator -f --roi_subset spleen --statistics --body_seg -i "
                 ""))
      with [ "TotalSegmentator"; "-f"; "--roi_subset"; "spleen"; "--statistics";
             "--body_seg"; "-i" ].
    change (List.last
              (split_from
                 "TotalSegmentator -f --roi_subset spleen --statistics --body_seg -i "
                 "") "")
      with "".
    rewrite split_from_app, (split_from_no_space temp "" H).
    cbn [removelast List.last].
    rewrite split_from_app.
    change (split_from " -o " ("" +:+ temp)) with [temp; "-o"; ""].
    cbn [removelast List.last].
    rewrite split_from_no_space
      by (rewrite count_spaces_app, H; reflexivity).
    reflexivity.
Qed.

(** X8, at the name of the sample area. *)
Lemma X8_sample_area_witness :
  totalseg_argv "/tmp/tmpk3v9"
  = [ "TotalSegmentator"; "-f"; "--roi_subset"; "spleen"; "--statistics";
      "--body_seg"; "-i"; "/tmp/tmpk3v9"; "-o"; "/tmp/tmpk3v9/out" ].
Proof.
  apply (proj2 (X8_command_line "/tmp/tmpk3v9")). reflexivity.
Defined.

(** ** The composed graph and the order of its stages *)

Section ComposedGraph.
Variable mkdtemp : filesystem -> string.
Variable subprocess_run : list string -> filesystem -> outcome Z * filesystem.
Variable json_loads : string -> option pyval.
Variable float_of_str : string -> option float.
Variable current_date : string.
Variable doc_build : list flowable -> outcome string.
Variable load_data_to_studies :
  string -> filesystem -> outcome (list DICOMStudy) * filesystem.
Variable selector_filter :
  option string -> list DICOMStudy -> outcome (list StudySelectedSeries).
Variable write_encapsulated_pdf :
  string -> ModelInfo -> list (string * string) ->
  payload -> payload -> filesystem -> outcome unit * filesystem.
Variables sample_data_path output_data_path : string.

Local Abbreviation G :=
  (compose mkdtemp subprocess_run json_loads float_of_str current_date
     doc_build load_data_to_studies selector_filter write_encapsulated_pdf
     sample_data_path output_data_path).
Local Abbreviation model_info :=
  {| creator := "J. Wasserthal"; model_name := "TotalSegmentator";
     model_version := "0.0.1"; model_uid := "" |}.
Local Abbreviation custom_tags :=
  [("SeriesDescription", "TotalSegmentator Report: Organ volumes")].
Local Abbreviation msg s p v :=
  {| msg_stage := s; msg_port := p; msg_value := v |}.
Local Abbreviation shape :=
  (compose_shape mkdtemp subprocess_run json_loads float_of_str current_date
     doc_build load_data_to_studies selector_filter write_encapsulated_pdf
     sample_data_path output_data_path).

Ltac schedule :=
  lazy -[Totalsegmentator_compute TotalsegmentatorPDF_compute pbind ext lift
         pure throw receive log set_fs];
  reflexivity.

Ltac step op inputs mb :=
  rewrite shape;
  rewrite (run_graph_step _ _ _ op inputs mb); [ | schedule | schedule ];
  rewrite <- shape.

Lemma run_loader_raise (fuel : nat) (w : world) (e : exn) (f1 : filesystem) :
  load_data_to_studies sample_data_path (fs w) = (Raise e, f1) ->
  run_graph G (S fuel) {| mailbox := []; executed := []; the_world := w |}
  = (Aborted "dicom_loader" e,
     {| mailbox := []; executed := ["dicom_loader"];
        the_world := set_fs f1 (log (EvCompute "dicom_loader" []) w) |}).
Proof.
  intros H.
  step (DICOMDataLoaderOperator load_data_to_studies (Some 1%nat)
          sample_data_path "dicom_loader")
       (@nil (string * payload)) (@nil message).
  cbn [op_compute op_name DICOMDataLoaderOperator the_world].
  unfold pbind, ext; cbn [fs log]. rewrite H. reflexivity.
Qed.

Lemma run_selector_raise (fuel : nat) (w : world) (studies : list DICOMStudy)
    (e : exn) :
  selector_filter None studies = Raise e ->
  run_graph G (S fuel)
    {| mailbox := [msg "series_selector" "dicom_study_list" (StudyList studies)];
       executed := ["dicom_loader"]; the_world := w |}
  = (Aborted "series_selector" e,
     {| mailbox := [];
        executed := ["dicom_loader"; "series_selector"];
        the_world :=
          log (EvCompute "series_selector"
                 [("dicom_study_list", StudyList studies)]) w |}).
Proof.
  intros H.
  step (DICOMSeriesSelectorOperator selector_filter None "series_selector")
       [("dicom_study_list", StudyList studies)] (@nil message).
  cbn [op_compute op_name DICOMSeriesSelectorOperator the_world receive
       String.eqb Ascii.eqb Bool.eqb].
  unfold pbind, lift. rewrite H. reflexivity.
Qed.

Lemma run_pdf_raise (fuel : nat) (w : world) (sel : list StudySelectedSeries)
    (report : pyval) (e : exn) :
  generate_pdf_report float_of_str current_date doc_build report = Raise e ->
  run_graph G (S fuel)
    {| mailbox :=
         [ msg "pdf_dcm_encapsulator" "study_selected_series_list"
             (StudySelectedSeriesList sel);
           msg "totalseg_pdf_op" "report_dict" (PyValue report) ];
       executed := ["dicom_loader"; "series_selector"; "totalseg_op"];
       the_world := w |}
  = (Aborted "totalseg_pdf_op" e,
     {| mailbox :=
          [ msg "pdf_dcm_encapsulator" "study_selected_series_list"
              (StudySelectedSeriesList sel) ];
        executed := ["dicom_loader"; "series_selector"; "totalseg_op";
                     "totalseg_pdf_op"];
        the_world :=
          log (EvCompute "totalseg_pdf_op" [("report_dict", PyValue report)])
            w |}).
Proof.
  intros H.
  step (TotalsegmentatorPDFOperator float_of_str current_date doc_build
          "totalseg_pdf_op")
       [("report_dict", PyValue report)]
       [ msg "pdf_dcm_encapsulator" "study_selected_series_list"
           (StudySelectedSeriesList sel) ].
  cbn [op_compute op_name TotalsegmentatorPDFOperator the_world].
  unfold TotalsegmentatorPDF_compute, pbind, lift.
  cbn [receive String.eqb Ascii.eqb Bool.eqb]. rewrite H. reflexivity.
Qed.

Lemma run_writer_any (fuel : nat) (w : world) (sel : list StudySelectedSeries)
    (pdf : payload) :
  let inputs :=
    [ ("study_selected_series_list", StudySelectedSeriesList sel);
      ("pdf_bytes", pdf) ] in
  let w1 := log (EvCompute "pdf_dcm_encapsulator" inputs) w in
  run_graph G (S fuel)
    {| mailbox :=
         [ msg "pdf_dcm_encapsulator" "study_selected_series_list"
             (StudySelectedSeriesList sel);
           msg "pdf_dcm_encapsulator" "pdf_bytes" pdf ];
       executed := ["dicom_loader"; "series_selector"; "totalseg_op";
                    "totalseg_pdf_op"];
       the_world := w |}
  = match write_encapsulated_pdf output_data_path model_info custom_tags
            (StudySelectedSeriesList sel) pdf (fs w) with
    | (Return _, f') =>
        run_graph G fuel
          {| mailbox := []; executed := pipeline_stages;
             the_world := set_fs f' w1 |}
    | (Raise e, f') =>
        (Aborted "pdf_dcm_encapsulator" e,
         {| mailbox := []; executed := pipeline_stages;
            the_world := set_fs f' w1 |})
    end.
Proof.
  intros inputs w1.
  step (DICOMEncapsulatedPDFWriterOperator write_encapsulated_pdf
          "pdf_dcm_encapsulator" output_data_path model_info custom_tags)
       inputs (@nil message).
  cbn [op_compute op_name DICOMEncapsulatedPDFWriterOperator the_world].
  change (receive inputs "study_selected_series_list")
    with (StudySelectedSeriesList sel).
  change (receive inputs "pdf_bytes") with pdf.
  unfold pbind, ext; cbn [fs log].
  destruct (write_encapsulated_pdf output_data_path model_info custom_tags
              (StudySelectedSeriesList sel) pdf (fs w)) as [[[]|e] f'];
    reflexivity.
Qed.

Lemma run_after_writer (fuel : nat) (w : world) :
  run_graph G (S fuel)
    {| mailbox := []; executed := pipeline_stages; the_world := w |}
  = (Completed,
     {| mailbox := []; executed := pipeline_stages; the_world := w |}).
Proof. rewrite shape. apply run_graph_done. schedule. Qed.
End ComposedGraph.

(** X10: whatever the collaborators do and whatever the fuel, the stages a
    run has executed are the first [k] stages of the dataflow, in that
    order and each once: no stage runs before the stages it depends on, and
    none runs twice.  A completed run has executed all five and leaves no
    message; an aborted run stopped at the stage that raised, the last one
    executed; a run out of fuel has executed as many stages as it had
    fuel. *)
Theorem X10_stages_run_in_order :
  forall (mkdtemp : filesystem -> string)
         (subprocess_run : list string -> filesystem -> outcome Z * filesystem)
         (json_loads : string -> option pyval)
         (float_of_str : string -> option float) (current_date : string)
         (doc_build : list flowable -> outcome string)
         (load_data_to_studies :
            string -> filesystem -> outcome (list DICOMStudy) * filesystem)
         (selector_filter :
            option string -> list DICOMStudy -> outcome (list StudySelectedSeries))
         (write_encapsulated_pdf :
            string -> ModelInfo -> list (string * string) ->
            payload -> payload -> filesystem -> outcome unit * filesystem)
         (sample_data_path output_data_path : string) (fuel : nat) (w : world),
    let result :=
      App_run mkdtemp subprocess_run json_loads float_of_str current_date
        doc_build load_data_to_studies selector_filter write_encapsulated_pdf
        fuel sample_data_path output_data_path w in
    exists k : nat,
      (k <= 5)%nat
      /\ executed (snd result) = firstn k pipeline_stages
      /\ match fst result with
         | Completed => k = 5%nat /\ mailbox (snd result) = []
         | Aborted stage _ =>
             (1 <= k)%nat /\ pipeline_stages !! (k - 1)%nat = Some stage
         | OutOfFuel => k = fuel
         end.
Proof.
  intros mk run json fos date build load self writer inp outp fuel w result.
  subst result. unfold App_run.
  (* the loader *)
  destruct fuel as [|fuel];
    [exists 0%nat; cbn [run_graph fst snd executed]; repeat split;
     try reflexivity; lia|].
  destruct (load inp (fs w)) as [[studies|e] f1] eqn:Hload.
  2:{ rewrite (run_loader_raise mk run json fos date build load self writer
                 inp outp _ _ _ _ Hload).
      exists 1%nat. cbn [fst snd executed]. repeat split; try reflexivity; lia. }
  rewrite (run_loader mk run json fos date build load self writer inp outp
             _ _ _ _ Hload).
  (* the selector *)
  destruct fuel as [|fuel];
    [exists 1%nat; cbn [run_graph fst snd executed]; repeat split;
     try reflexivity; lia|].
  destruct (self None studies) as [sel|e] eqn:Hsel.
  2:{ rewrite (run_selector_raise mk run json fos date build load self writer
                 inp outp _ _ _ _ Hsel).
      exists 2%nat. cbn [fst snd executed]. repeat split; try reflexivity; lia. }
  rewrite (run_selector mk run json fos date build load self writer inp outp
             _ _ _ _ Hsel).
  (* the segmentation *)
  destruct fuel as [|fuel];
    [exists 2%nat; cbn [run_graph fst snd executed]; repeat split;
     try reflexivity; lia|].
  set (seg_inputs :=
         [("study_selected_series_list", StudySelectedSeriesList sel)]).
  set (w2 := log (EvCompute "series_selector"
                    [("dicom_study_list", StudyList studies)])
               (set_fs f1 (log (EvCompute "dicom_loader" []) w))).
  set (w2' := log (EvCompute "totalseg_op" seg_inputs) w2).
  destruct (segment_in run json (receive seg_inputs "study_selected_series_list")
              (mk (fs w2')) (tmp_enter (mk (fs w2')) w2')) as [r0 w0] eqn:E.
  pose proof (Totalsegmentator_compute_eq mk run json seg_inputs w2' w0 r0 E)
    as Hseg.
  destruct r0 as [report|e].
  2:{ rewrite (run_segmentation_raise mk run json fos date build load self
                 writer inp outp _ w2 _ sel e Hseg).
      exists 3%nat. cbn [fst snd executed]. repeat split; try reflexivity; lia. }
  rewrite (run_segmentation_return mk run json fos date build load self writer
             inp outp _ w2 _ sel report Hseg).
  (* the PDF stage *)
  destruct fuel as [|fuel];
    [exists 3%nat; cbn [run_graph fst snd executed]; repeat split;
     try reflexivity; lia|].
  destruct (generate_pdf_report fos date build report) as [pdf_bytes|e] eqn:Hpdf.
  2:{ rewrite (run_pdf_raise mk run json fos date build load self writer
                 inp outp _ _ _ _ _ Hpdf).
      exists 4%nat. cbn [fst snd executed]. repeat split; try reflexivity; lia. }
  rewrite (run_pdf mk run json fos date build load self writer inp outp
             _ _ _ _ _ Hpdf).
  (* the writer *)
  destruct fuel as [|fuel];
    [exists 4%nat; cbn [run_graph fst snd executed]; repeat split;
     try reflexivity; lia|].
  rewrite (run_writer_any mk run json fos date build load self writer inp outp).
  destruct (writer outp _ _ (StudySelectedSeriesList sel)
              (pdf_payload pdf_bytes) _) as [[[]|e] f5].
  2:{ exists 5%nat. cbn [fst snd executed]. repeat split; try reflexivity; lia. }
  destruct fuel as [|fuel];
    [exists 5%nat; cbn [run_graph fst snd executed]; repeat split;
     try reflexivity; lia|].
  rewrite (run_after_writer mk run json fos date build load self writer
             inp outp).
  exists 5%nat. cbn [fst snd executed mailbox]. repeat split; try reflexivity; lia.
Qed.

(** ** The two decimals of a formatted volume *)

Lemma round_half_even_nearest (num den : Z) :
  0 < den ->
  let h := round_half_even num den in
  2 * Z.abs (h * den - num) <= den
  /\ (2 * Z.abs (h * den - num) = den -> Z.even h = true).
Proof.
  intros Hden h. subst h. unfold round_half_even.
  pose proof (Z.div_mod num den ltac:(lia)) as Hdm.
  pose proof (Z.mod_pos_bound num den Hden) as Hr.
  set (q := num / den) in *. set (r := num mod den) in *.
  destruct (2 * r <? den) eqn:E1.
  - apply Z.ltb_lt in E1.
    replace (q * den - num) with (- r) by lia. rewrite Z.abs_opp, Z.abs_eq by lia.
    split; lia.
  - apply Z.ltb_ge in E1. destruct (den <? 2 * r) eqn:E2.
    + apply Z.ltb_lt in E2.
      replace ((q + 1) * den - num) with (den - r) by lia.
      rewrite Z.abs_eq by lia. split; lia.
    + apply Z.ltb_ge in E2. destruct (Z.even q) eqn:E3.
      * replace (q * den - num) with (- r) by lia.
        rewrite Z.abs_opp, Z.abs_eq by lia. split; [lia | intros _; exact E3].
      * replace ((q + 1) * den - num) with (den - r) by lia.
        rewrite Z.abs_eq by lia. split; [lia|]. intros _.
        rewrite Z.add_1_r, Z.even_succ, <- Z.negb_even, E3. reflexivity.
Qed.

(** X11: the figure [f"{x:.2f}"] prints for a finite double [m * 2^e] is
    its number of hundredths [h] written with two decimals, and [h] is the
    integer nearest to the exact value of [100 * x]: exact when [e] is not
    negative, otherwise within half a unit of it, and even when the value
    lies half way between two integers. *)
Theorem X11_two_decimals_are_nearest :
  forall (x : float) (s : bool) (m : positive) (e : Z),
    Prim2SF x = S754_finite s m e ->
    let h := hundredths m e in
    format_2f x
    = sign_str s +:+ decimal (h / 100) +:+ "." +:+ two_digits (h mod 100)
    /\ (0 <= e -> h = Z.pos m * 2 ^ e * 100)
    /\ (e < 0 ->
        2 * Z.abs (h * 2 ^ (- e) - Z.pos m * 100) <= 2 ^ (- e)
        /\ (2 * Z.abs (h * 2 ^ (- e) - Z.pos m * 100) = 2 ^ (- e) ->
            Z.even h = true)).
Proof.
  intros x s m e Hx h. subst h. split; [|split].
  - unfold format_2f. rewrite Hx. reflexivity.
  - intros He. unfold hundredths. now replace (0 <=? e) with true
      by (symmetry; apply Z.leb_le; exact He).
  - intros He. unfold hundredths.
    replace (0 <=? e) with false by (symmetry; apply Z.leb_gt; exact He).
    apply round_half_even_nearest. apply Z.pow_pos_nonneg; lia.
Qed.

(** X11, at the volume of the example, 377109 / 1000. *)
Lemma X11_spleen_volume_witness :
  format_2f (377109 / 1000) = "377.11"
  /\ 2 * Z.abs (37711 * 2 ^ 44 - 6634171687023673 * 100) <= 2 ^ 44.
Proof.
  destruct (X11_two_decimals_are_nearest (377109 / 1000)%float false
              6634171687023673%positive (-44) eq_refl)
    as (Hfmt & _ & Hnear).
  split.
  - rewrite Hfmt. reflexivity.
  - exact (proj1 (Hnear ltac:(lia))).
Defined.

(** * Statements on the formatter, with ASCII keys *)

(** C4 (as stated, refuted): with a renderer that writes the text of the
    blocks, two calls on the same statistics at two clock readings return
    different bytes; and with renderers that stamp what they write, two
    calls on the same statistics at one clock reading do. *)
Lemma C4_clock_changes_bytes :
  generate_pdf_report no_numeric_strings "2024-05-01 12:00:00" render_text
    spleen_statistics
  <> generate_pdf_report no_numeric_strings "2024-05-01 12:00:01" render_text
       spleen_statistics
  /\ generate_pdf_report no_numeric_strings "2024-05-01 12:00:00"
       (render_stamped "id-1") spleen_statistics
     <> generate_pdf_report no_numeric_strings "2024-05-01 12:00:00"
          (render_stamped "id-2") spleen_statistics.
Proof. split; vm_compute; intros H; discriminate H. Qed.

(** C4 (amended): the statistics alone decide which of four courses the
    call takes and, in the last two, the blocks [body] that follow the head
    of the document: the call returns null without rendering; or it raises
    out of the loop without rendering; or it renders the head followed by
    [body] once and returns the bytes of the renderer, or raises what the
    renderer raises; or it renders the head followed by [body] once and
    returns the bytes of the renderer, or null when the renderer raises.
    The clock reading is found in the third block of the head, the date
    line, and nowhere else.  What the renderer returns for a document is
    the renderer's affair at each call. *)
Theorem C4_document_fixed_up_to_date_line :
  forall (float_of_str : string -> option float) (data : pyval),
    ((forall current_date doc_build,
         generate_pdf_report float_of_str current_date doc_build data
         = Return None)
     \/ (exists e, forall current_date doc_build,
           generate_pdf_report float_of_str current_date doc_build data
           = Raise e)
     \/ (exists body, forall current_date doc_build,
           generate_pdf_report float_of_str current_date doc_build data
           = match doc_build (story_head current_date ++ body) with
             | Return pdf => Return (Some pdf)
             | Raise e => Raise e
             end)
     \/ (exists body, forall current_date doc_build,
           generate_pdf_report float_of_str current_date doc_build data
           = match doc_build (story_head current_date ++ body) with
             | Return pdf => Return (Some pdf)
             | Raise _ => Return None
             end))
    /\ (forall current_date,
          story_head current_date !! 2%nat
          = Some (Paragraph ("Report generated on: " +:+ current_date)
                            normal_style))
    /\ (forall date1 date2 (i : nat),
          i <> 2%nat -> story_head date1 !! i = story_head date2 !! i).
Proof.
  intros fos data. split; [|split].
  - unfold generate_pdf_report.
    destruct (negb (isinstance_dict data) || negb (truthy data));
      [left; reflexivity|].
    destruct (for_items fos (dict_items data) ([table_header], 0))
      as [[rows n]|e]; [|right; left; exists e; reflexivity].
    cbn [bind]. right. right.
    destruct ((n =? 0) && (0 <? py_len data)).
    { left. exists [Paragraph no_valid_data_line normal_style].
      intros date build. unfold bind. destruct (build _); reflexivity. }
    destruct (n =? 0).
    { left. exists [Paragraph empty_input_line normal_style].
      intros date build. unfold bind. destruct (build _); reflexivity. }
    right. exists [Table rows col_widths table_style; Spacer 1 (0.5 * inch)].
    intros date build. rewrite <- app_assoc. cbn [app].
    destruct (build _); reflexivity.
  - intros date. reflexivity.
  - intros date1 date2 i Hi.
    destruct i as [|[|[|[|i]]]]; try reflexivity. congruence.
Qed.

(** C4, at the first block of the head, the title, at two clock
    readings. *)
Lemma C4_title_block_witness :
  story_head "2024-05-01 12:00:00" !! 0%nat
  = story_head "2024-05-01 12:00:01" !! 0%nat.
Proof.
  apply (proj2 (proj2 (C4_document_fixed_up_to_date_line no_numeric_strings
                         spleen_statistics))
           "2024-05-01 12:00:00" "2024-05-01 12:00:01" 0%nat).
  discriminate.
Defined.

(** C7: for an organ name of ASCII characters, an entry that is a mapping
    with a volume [float] converts to [x] makes the loop append the row of
    the capitalised name and of [x / 1000] formatted to two decimals, and
    count it, and so does in particular every entry whose volume is a
    double; that row stands in the table at the place of the entry; the
    figure printed for a finite double is its number of hundredths, the
    integer nearest to a hundred times its exact value, the even one at a
    tie; for [{"spleen": {"volume": 377109.0}}] the document handed to the
    renderer holds the table with the single data row
    [("Spleen", "377.11")]; for the statistics of the example of the source
    it holds the seventeen rows written out below; and volumes that are
    integers or booleans are converted likewise. *)
Theorem C7_usable_volume_row :
  forall (float_of_str : string -> option float),
    (forall organ details x rows n,
        is_ascii organ = true ->
        usable_volume float_of_str details x ->
        table_entry float_of_str organ details (rows, n)
        = Return (rows ++ [[capitalize organ; format_2f (x / 1000)]], n + 1))
    /\ (forall organ (x : float) more rows n,
          is_ascii organ = true ->
          table_entry float_of_str organ
            (PDict (("volume", PFloat x) :: more)) (rows, n)
          = Return (rows ++ [[capitalize organ; format_2f (x / 1000)]],
                    n + 1))
    /\ (forall (items : list (string * pyval)) (i : nat) organ details x
               (rows : list (list string)) n,
          Forall (fun kv => is_ascii kv.1 = true) items ->
          for_items float_of_str items ([table_header], 0) = Return (rows, n) ->
          items !! i = Some (organ, details) ->
          usable_volume float_of_str details x ->
          rows !! S i = Some [capitalize organ; format_2f (x / 1000)])
    /\ (forall (y : float) (s : bool) (m : positive) (e : Z),
          Prim2SF y = S754_finite s m e ->
          format_2f y
          = sign_str s +:+ decimal (hundredths m e / 100) +:+ "."
            +:+ two_digits (hundredths m e mod 100)
          /\ (0 <= e -> hundredths m e = Z.pos m * 2 ^ e * 100)
          /\ (e < 0 ->
              2 * Z.abs (hundredths m e * 2 ^ (- e) - Z.pos m * 100)
              <= 2 ^ (- e)
              /\ (2 * Z.abs (hundredths m e * 2 ^ (- e) - Z.pos m * 100)
                  = 2 ^ (- e) ->
                  Z.even (hundredths m e) = true)))
    /\ (forall current_date doc_build,
          generate_pdf_report float_of_str current_date doc_build
            spleen_statistics
          = match doc_build
                    ((story_head current_date
                      ++ [Table [table_header; ["Spleen"; "377.11"]]
                                col_widths table_style])
                     ++ [Spacer 1 (0.5 * inch)]) with
            | Raise _ => Return None
            | Return pdf_bytes => Return (Some pdf_bytes)
            end)
    /\ (forall current_date doc_build,
          generate_pdf_report float_of_str current_date doc_build
            segmentation_data
          = match doc_build
                    ((story_head current_date
                      ++ [Table [ table_header;
                                  ["Spleen"; "377.11"];
                                  ["Kidney_right"; "185.34"];
                                  ["Kidney_left"; "192.59"];
                                  ["Gallbladder"; "45.01"];
                                  ["Liver"; "1650.23"];
                                  ["Stomach"; "210.46"];
                                  ["Pancreas"; "98.77"];
                                  ["Adrenal_gland_right"; "5.12"];
                                  ["Adrenal_gland_left"; "5.59"];
                                  ["Lung_upper_lobe_left"; "450.12"];
                                  ["Lung_lower_lobe_left"; "510.35"];
                                  ["Lung_upper_lobe_right"; "480.79"];
                                  ["Lung_middle_lobe_right"; "210.57"];
                                  ["Lung_lower_lobe_right"; "530.99"];
                                  ["Invalid_organ"; "Missing Data"];
                                  ["Another_invalid"; "Missing Data"];
                                  ["Empty_details"; "Missing Data"] ]
                                col_widths table_style])
                     ++ [Spacer 1 (0.5 * inch)]) with
            | Raise _ => Return None
            | Return pdf_bytes => Return (Some pdf_bytes)
            end)
    /\ for_items float_of_str numeric_kinds ([table_header], 0)
       = Return ([ table_header; ["Liver"; "1500.00"];
                   ["Kidney_left"; "0.00"]; ["X1"; "-2.50"] ], 3).
Proof.
  intros fos. repeat apply conj.
  - intros organ details x rows n _ Hx. now apply table_entry_usable.
  - intros organ x more rows n _. apply table_entry_usable.
    split; [reflexivity|]. exists (PFloat x). split; reflexivity.
  - intros items i organ details x rows n _ H Hi Hx.
    now destruct (for_items_usable_row fos items _ _ _ _ _ _ _ _ H Hi Hx).
  - intros y s m e Hy. split; [|split].
    + unfold format_2f. rewrite Hy. reflexivity.
    + intros He. unfold hundredths. now replace (0 <=? e) with true
        by (symmetry; apply Z.leb_le; exact He).
    + intros He. unfold hundredths.
      replace (0 <=? e) with false by (symmetry; apply Z.leb_gt; exact He).
      apply round_half_even_nearest. apply Z.pow_pos_nonneg; lia.
  - intros date build. vm_compute. reflexivity.
  - intros date build. vm_compute. reflexivity.
  - vm_compute. reflexivity.
Qed.

(** C7, at the entry [kidney_left] of the example of the source, at its
    place in the table, and at the figure of its volume. *)
Lemma C7_kidney_left_witness :
  table_entry no_numeric_strings "kidney_left"
    (PDict [("volume", PFloat 192588.1)]) ([table_header], 0)
  = Return ([table_header; ["Kidney_left"; "192.59"]], 1)
  /\ (exists rows n,
        for_items no_numeric_strings (dict_items segmentation_data)
          ([table_header], 0) = Return (rows, n)
        /\ rows !! 3%nat = Some ["Kidney_left"; "192.59"])
  /\ format_2f (192588.1 / 1000) = "192.59".
Proof.
  pose proof (C7_usable_volume_row no_numeric_strings)
    as (Hrow & _ & Hplace & Hfigure & _).
  split; [|split].
  - apply (Hrow "kidney_left" (PDict [("volume", PFloat 192588.1)])
             192588.1%float [table_header] 0).
    + reflexivity.
    + split; [reflexivity|]. exists (PFloat 192588.1). split; reflexivity.
  - assert (exists rows n,
              for_items no_numeric_strings (dict_items segmentation_data)
                ([table_header], 0) = Return (rows, n)) as (rows & n & H)
      by (eexists _, _; vm_compute; reflexivity).
    exists rows, n. split; [exact H|].
    apply (Hplace (dict_items segmentation_data) 2%nat "kidney_left"
             (PDict [("volume", PFloat 192588.1);
                     ("intensity", PFloat 100.8)])
             192588.1%float rows n).
    + repeat constructor.
    + exact H.
    + reflexivity.
    + split; [reflexivity|]. exists (PFloat 192588.1). split; reflexivity.
  - destruct (Hfigure (192588.1 / 1000)%float false
                6776091370281186%positive (-45) eq_refl) as (Hfmt & _).
    rewrite Hfmt. reflexivity.
Defined.

(** X1: for a mapping with entries under ASCII keys, none of whose volumes
    overflows, the report is decided by the number of usable entries: with
    none, the document of the explanatory line is rendered and its bytes
    are returned;
    otherwise the document holds the table of the header followed by one
    row per entry, in the order of the input, and the result is the bytes
    of the renderer, or null when the renderer raises. *)
Theorem X1_report_of_mapping :
  forall (float_of_str : string -> option float) (current_date : string)
         (doc_build : list flowable -> outcome string)
         (items : list (string * pyval)),
    items <> [] ->
    Forall (fun kv => is_ascii kv.1 = true) items ->
    Forall (fun kv => expected_cell float_of_str kv.2 <> None) items ->
    generate_pdf_report float_of_str current_date doc_build (PDict items)
    = if (count_usable float_of_str items =? 0)%nat then
        match doc_build (story_head current_date
                         ++ [Paragraph no_valid_data_line normal_style]) with
        | Return pdf => Return (Some pdf)
        | Raise e => Raise e
        end
      else
        match doc_build
                ((story_head current_date
                  ++ [Table (table_header :: map (row_of float_of_str) items)
                            col_widths table_style])
                 ++ [Spacer 1 (0.5 * inch)]) with
        | Return pdf => Return (Some pdf)
        | Raise _ => Return None
        end.
Proof.
  intros fos date build items Hne _ Hall. unfold generate_pdf_report.
  destruct items as [|kv rest]; [congruence|].
  cbn [isinstance_dict truthy negb orb dict_items].
  rewrite (for_items_map fos (kv :: rest) [table_header] 0 Hall).
  cbn [bind app]. rewrite Z.add_0_l.
  replace (0 <? py_len (PDict (kv :: rest))) with true
    by (symmetry; apply Z.ltb_lt; simpl; lia).
  rewrite andb_true_r.
  destruct (count_usable fos (kv :: rest)) as [|k] eqn:Ek.
  - cbn [Z.of_nat Z.eqb Nat.eqb]. unfold bind.
    now destruct (build _).
  - replace (Z.of_nat (S k) =? 0) with false
      by (symmetry; apply Z.eqb_neq; lia).
    cbn [Nat.eqb]. now destruct (build _).
Qed.

(** X1, at a mapping with a usable entry, an entry without volume and an
    entry whose volume is [None]. *)
Lemma X1_mixed_entries_witness :
  generate_pdf_report no_numeric_strings "2024-05-01 12:00:00" render_text
    (PDict [ ("spleen", PDict [("volume", PFloat 377109)]);
             ("liver", PStr "n/a");
             ("kidney_left", PDict [("volume", PNone)]) ])
  = Return (Some (String.concat nl
      [ "Organ Volume Report"; "";
        "Report generated on: 2024-05-01 12:00:00"; "";
        "Organ,Volume (cm³);Spleen,377.11;Liver,Missing Data;Kidney_left,Invalid Data";
        "" ])).
Proof.
  rewrite (X1_report_of_mapping no_numeric_strings "2024-05-01 12:00:00"
             render_text).
  - vm_compute. reflexivity.
  - discriminate.
  - repeat constructor.
  - repeat constructor; vm_compute; discriminate.
Defined.


(** X2: how the loop classifies an entry under an ASCII key.  The row is marked "Missing Data"
    exactly when the entry is not a mapping or has no [volume] key; it is
    marked "Invalid Data" exactly when the volume is [None], a list, a
    mapping, or a string that [float] rejects; the entry is counted exactly
    when [float] converts its volume; and the iteration raises exactly when
    the volume is an integer out of the range of a double. *)
Theorem X2_entry_classification :
  forall (float_of_str : string -> option float) (organ : string)
         (details : pyval) (rows : list (list string)) (n : Z),
    is_ascii organ = true ->
    ((isinstance_dict details = false
      \/ assoc_get "volume" (dict_items details) = None)
     <-> table_entry float_of_str organ details (rows, n)
         = Return (rows ++ [[capitalize organ; "Missing Data"]], n))
    /\ ((isinstance_dict details = true
         /\ exists v, assoc_get "volume" (dict_items details) = Some v
                      /\ (v = PNone \/ (exists l, v = PList l)
                          \/ (exists d, v = PDict d)
                          \/ (exists s, v = PStr s /\ float_of_str s = None)))
        <-> table_entry float_of_str organ details (rows, n)
            = Return (rows ++ [[capitalize organ; "Invalid Data"]], n))
    /\ ((exists x, usable_volume float_of_str details x)
        <-> exists rows', table_entry float_of_str organ details (rows, n)
                          = Return (rows', n + 1))
    /\ ((isinstance_dict details = true
         /\ exists k, assoc_get "volume" (dict_items details) = Some (PInt k)
                      /\ float_of_int k = Raise OverflowError)
        <-> exists e, table_entry float_of_str organ details (rows, n)
                      = Raise e).
Proof.
  intros fos organ details rows n _.
  assert (forall a b : string, a <> b ->
            rows ++ [[capitalize organ; a]] <> rows ++ [[capitalize organ; b]])
    as Hcell.
  { intros a b Hab H. apply app_inv_head in H. injection H as H1. congruence. }
  unfold table_entry, usable_volume, dict_contains, dict_getitem.
  destruct (isinstance_dict details) eqn:Hd; cbn [andb].
  2:{ split; [|split; [|split]]; split; intros H.
      - reflexivity.
      - now left.
      - destruct H as [H _]. discriminate.
      - injection H as H1. exfalso. revert H1. now apply Hcell.
      - destruct H as (x & H & _). discriminate.
      - destruct H as (rows' & H). injection H as _ H2. lia.
      - destruct H as [H _]. discriminate.
      - destruct H as (e & H). discriminate. }
  destruct (assoc_get "volume" (dict_items details)) as [v|] eqn:Hv.
  2:{ split; [|split; [|split]]; split; intros H.
      - reflexivity.
      - now right.
      - destruct H as (_ & v & H & _). discriminate.
      - injection H as H1. exfalso. revert H1. now apply Hcell.
      - destruct H as (x & _ & v & H & _). discriminate.
      - destruct H as (rows' & H). injection H as _ H2. lia.
      - destruct H as (_ & k & H & _). discriminate.
      - destruct H as (e & H). discriminate. }
  destruct (py_float fos v) as [x|e] eqn:E; cbn [try_except bind].
  - split; [|split; [|split]]; split; intros H.
    + destruct H as [H|H]; discriminate.
    + injection H as _ H2. lia.
    + destruct H as (_ & v' & Hv' & Hkind). injection Hv' as <-.
      destruct Hkind as [->|[(l & ->)|[(d & ->)|(s & -> & Hs)]]];
        cbn [py_float] in E; try discriminate.
      rewrite Hs in E. discriminate.
    + injection H as _ H2. lia.
    + eexists. reflexivity.
    + exists x. split; [reflexivity|]. now exists v.
    + destruct H as (_ & k & Hk' & Hk). injection Hk' as ->.
      cbn [py_float] in E. congruence.
    + destruct H as (e & H). discriminate.
  - destruct (is_ValueError_or_TypeError e) eqn:He.
    + split; [|split; [|split]]; split; intros H.
      * destruct H as [H|H]; discriminate.
      * injection H as H1. exfalso. revert H1. now apply Hcell.
      * reflexivity.
      * split; [reflexivity|]. exists v. split; [reflexivity|].
        exact (py_float_handled _ _ _ E He).
      * destruct H as (x & _ & v' & Hv' & Hx). injection Hv' as <-. congruence.
      * destruct H as (rows' & H). injection H as _ H2. lia.
      * destruct H as (_ & k & Hk' & Hk). injection Hk' as ->.
        cbn [py_float] in E. rewrite Hk in E. injection E as <-. discriminate.
      * destruct H as (e' & H). discriminate.
    + destruct (py_float_unhandled _ _ _ E He) as (-> & k & -> & Hk).
      split; [|split; [|split]]; split; intros H.
      * destruct H as [H|H]; discriminate.
      * discriminate.
      * destruct H as (_ & v' & Hv' & Hkind). injection Hv' as <-.
        destruct Hkind as [H|[(l & H)|[(d & H)|(s & H & _)]]]; discriminate.
      * discriminate.
      * destruct H as (x & _ & v' & Hv' & Hx). injection Hv' as <-.
        cbn [py_float] in Hx. congruence.
      * destruct H as (rows' & H). discriminate.
      * eexists. reflexivity.
      * split; [reflexivity|]. now exists k.
Qed.

(** X2, at a volume that is a string [float] rejects. *)
Lemma X2_rejected_string_witness :
  table_entry no_numeric_strings "liver" (PDict [("volume", PStr "large")])
    ([table_header], 0)
  = Return ([table_header; ["Liver"; "Invalid Data"]], 0).
Proof.
  apply (proj1 (proj1 (proj2 (X2_entry_classification no_numeric_strings
                                "liver" (PDict [("volume", PStr "large")])
                                [table_header] 0 eq_refl)))).
  split; [reflexivity|]. exists (PStr "large"). split; [reflexivity|].
  right. right. right. exists "large". split; reflexivity.
Defined.





(** * Statements on the segmentation stage *)

(** ** The directories during the copies, and the world after the
    executable *)

#[local] Instance same_dirs_refl : Reflexive same_dirs.
Proof. intros w. reflexivity. Qed.

#[local] Instance same_dirs_trans : Transitive same_dirs.
Proof. intros w1 w2 w3 H1 H2. unfold same_dirs in *. congruence. Qed.

Lemma same_dirs_copy2 (src d : string) : preserves same_dirs (copy2 src d).
Proof.
  intros w r w' H. unfold copy2 in H.
  destruct (decide (src ∈ dirs (fs w))); [injection H as <- <-; reflexivity|].
  destruct (files (fs w) !! src) as [content|]; injection H as <- <-;
    reflexivity.
Qed.

(** The copies create and remove no directory. *)
Lemma same_dirs_copy_instances (data_in : payload) (temp : string) :
  preserves same_dirs (copy_instances data_in temp).
Proof.
  unfold copy_instances. apply preserves_pbind; [typeclasses eauto ..| |].
  - apply preserves_lift; typeclasses eauto.
  - intros instances. apply preserves_for_each; [typeclasses eauto ..|].
    intros f. apply same_dirs_copy2.
Qed.

(** Outside the area, entering it changes no directory. *)
Lemma tmp_enter_dirs (temp p : string) (w : world) :
  ~ inside temp p ->
  (p ∈ dirs (fs (tmp_enter temp w)) <-> p ∈ dirs (fs w)).
Proof.
  intros Hp. cbn [tmp_enter fs log set_fs dirs].
  rewrite elem_of_union, elem_of_singleton. split; [|tauto].
  intros [->|H]; [|exact H]. exfalso. apply Hp. now left.
Qed.

(** However [run_totalsegmentator] ends, the world it leaves is the one
    after the executable. *)
Lemma run_totalsegmentator_world
    (subprocess_run : list string -> filesystem -> outcome Z * filesystem)
    (json_loads : string -> option pyval) (temp : string) (w w0 : world)
    (r0 : outcome pyval) :
  run_totalsegmentator subprocess_run json_loads temp w = (r0, w0) ->
  w0 = log (EvExec (totalseg_argv temp))
         (set_fs (snd (subprocess_run (totalseg_argv temp) (fs w))) w).
Proof.
  rewrite run_totalsegmentator_eq.
  unfold pbind, check_output, open_read, json_load.
  destruct (subprocess_run (totalseg_argv temp) (fs w)) as [[status|e] f'].
  - destruct (status =? 0).
    + cbn [fs log set_fs snd].
      destruct (files f' !! statistics_path temp) as [text|].
      * destruct (json_loads text); unfold pure, throw; now intros [= _ <-].
      * now intros [= _ <-].
    + now intros [= _ <-].
  - now intros [= _ <-].
Qed.

(** The instances copied are those of the first selected series of the
    first study. *)
Lemma copy_instances_first (s : StudySelectedSeries)
    (rest : list StudySelectedSeries) (ss : SelectedSeries)
    (more : list SelectedSeries) (temp : string) (w : world) :
  selected_series s = ss :: more ->
  copy_instances (StudySelectedSeriesList (s :: rest)) temp w
  = for_each (get_sop_instances (series ss))
      (fun f => copy2 (sop_filename f) temp) w.
Proof.
  intros Hs. unfold copy_instances, pbind, lift.
  cbn [first_series_instances getitem nth_error bind]. rewrite Hs.
  cbn [getitem nth_error bind]. reflexivity.
Qed.




(** C9: whatever [compute] receives and however it ends, the copies start
    in the filesystem of the invocation with the directory of the area
    added to it; the directory is still there when they end; when they
    raise, [compute] raises the same and leaves the world of the failed
    copy with the area removed; when they return, the executable is
    started on the filesystem they left, which holds the area, and
    [compute] leaves the world after the executable with the area removed.
    The history is that of the world it started in followed by the
    creation of the area, what the block did, and the removal of the area;
    nothing is left of the area; every other path that the executable
    leaves alone reads as before; and when the name of the area was unused
    and the executable writes below the area only, the filesystem is the
    one the invocation started with. *)
Theorem C9_temporary_area_scoped :
  forall (mkdtemp : filesystem -> string)
         (subprocess_run : list string -> filesystem -> outcome Z * filesystem)
         (json_loads : string -> option pyval)
         (op_input : list (string * payload)) (w w' : world)
         (r : outcome (list (string * payload))),
    Totalsegmentator_compute mkdtemp subprocess_run json_loads op_input w
    = (r, w') ->
    let temp := mkdtemp (fs w) in
    (exists (w1 wc : world) (rc : outcome unit),
        files (fs w1) = files (fs w)
        /\ dirs (fs w1) = {[temp]} ∪ dirs (fs w)
        /\ history w1 = history w ++ [EvMkdtemp temp]
        /\ copy_instances (receive op_input "study_selected_series_list")
             temp w1 = (rc, wc)
        /\ temp ∈ dirs (fs wc)
        /\ match rc with
           | Raise e => r = Raise e /\ w' = tmp_cleanup temp wc
           | Return _ =>
               exists status f',
                 subprocess_run (totalseg_argv temp) (fs wc) = (status, f')
                 /\ w' = tmp_cleanup temp
                           (log (EvExec (totalseg_argv temp)) (set_fs f' wc))
           end)
    /\ (exists mid,
          history w' = history w ++ [EvMkdtemp temp] ++ mid ++ [EvRmtree temp])
    /\ (forall p, inside temp p ->
                  files (fs w') !! p = None /\ p ∉ dirs (fs w'))
    /\ (forall p, ~ inside temp p ->
                  leaves_alone subprocess_run (totalseg_argv temp) p ->
                  same_at p (fs w) (fs w'))
    /\ (absent temp (fs w) ->
        (forall p, ~ inside temp p ->
                   leaves_alone subprocess_run (totalseg_argv temp) p) ->
        fs w' = fs w).
Proof.
  intros mkdtemp run json op_input w w' r H temp.
  destruct (segment_in run json (receive op_input "study_selected_series_list")
              temp (tmp_enter temp w)) as [r0 w0] eqn:E.
  rewrite (Totalsegmentator_compute_eq mkdtemp run json op_input w w0 r0 E) in H.
  injection H as <- <-. fold temp.
  assert (forall p, ~ inside temp p ->
                    leaves_alone run (totalseg_argv temp) p ->
                    same_at p (fs w) (fs (tmp_cleanup temp w0))) as Hframe.
  { intros p Hp Hexe.
    assert (keeps p (tmp_enter temp w) w0) as Hk.
    { eapply (preserves_segment_in (keeps p)); [| |exact E].
      - intros src. now apply keeps_copy2.
      - now apply keeps_check_output. }
    apply same_at_trans with (fs (tmp_enter temp w)).
    - split; [reflexivity|]. now apply tmp_enter_dirs.
    - apply same_at_trans with (fs w0); [exact Hk|].
      now apply rmtree_outside. }
  split; [|split; [|split; [|split]]].
  - destruct (copy_instances (receive op_input "study_selected_series_list")
                temp (tmp_enter temp w)) as [rc wc] eqn:Ec.
    exists (tmp_enter temp w), wc, rc.
    split; [reflexivity|]. split; [reflexivity|]. split; [reflexivity|].
    split; [exact Ec|]. split.
    + rewrite (same_dirs_copy_instances _ _ _ _ _ Ec).
      cbn [tmp_enter fs log set_fs dirs].
      apply elem_of_union. left. now apply elem_of_singleton.
    + unfold segment_in, pbind in E. rewrite Ec in E.
      destruct rc as [[]|e].
      * exists (fst (run (totalseg_argv temp) (fs wc))),
               (snd (run (totalseg_argv temp) (fs wc))).
        split; [apply surjective_pairing|].
        now rewrite (run_totalsegmentator_world run json temp wc w0 r0 E).
      * injection E as <- <-. split; reflexivity.
  - assert (grows (tmp_enter temp w) w0) as [mid Hmid].
    { eapply (preserves_segment_in grows); [| |exact E].
      - intros src. apply grows_copy2.
      - apply grows_check_output. }
    exists mid. simpl. rewrite Hmid. simpl. now rewrite <- !app_assoc.
  - intros p Hp. now apply rmtree_inside.
  - exact Hframe.
  - intros Habs Hexe. apply filesystem_eq. intros p.
    change (fs (tmp_cleanup temp w0)) with (rmtree temp (fs w0)).
    change (fs (tmp_cleanup temp w0)) with (rmtree temp (fs w0)) in Hframe.
    destruct (under temp p) eqn:Eu.
    + assert (inside temp p) as Hin by now right.
      destruct (Habs p Hin) as [Hf Hd].
      destruct (rmtree_inside temp p (fs w0) Hin) as [Hf' Hd'].
      split; [congruence | tauto].
    + destruct (String.eqb_spec p temp) as [->|Hne].
      * assert (inside temp temp) as Hin by now left.
        destruct (Habs temp Hin) as [Hf Hd].
        destruct (rmtree_inside temp temp (fs w0) Hin) as [Hf' Hd'].
        split; [congruence | tauto].
      * assert (~ inside temp p) as Hout by (apply not_inside; now split).
        apply Hframe; [exact Hout | now apply Hexe].
Qed.

(** C9, at the sample invocation: the area is created, the two files of
    the first series are copied into it, the executable is started, the
    area is removed, and the filesystem is the one before. *)
Lemma C9_sample_invocation_witness :
  let w' :=
    snd (Totalsegmentator_compute sample_mkdtemp (exe_writing spleen_json 0)
           sample_json_loads
           [("study_selected_series_list",
             StudySelectedSeriesList sample_selected)]
           sample_world) in
  (exists mid,
      history w'
      = history sample_world ++ [EvMkdtemp "/tmp/tmpk3v9"] ++ mid
        ++ [EvRmtree "/tmp/tmpk3v9"])
  /\ (forall p, inside "/tmp/tmpk3v9" p ->
                files (fs w') !! p = None /\ p ∉ dirs (fs w'))
  /\ (exists wc,
        "/tmp/tmpk3v9" ∈ dirs (fs wc)
        /\ files (fs wc) !! "/tmp/tmpk3v9/2.dcm" = Some "ct-2"
        /\ w' = tmp_cleanup "/tmp/tmpk3v9"
                  (log (EvExec (totalseg_argv "/tmp/tmpk3v9"))
                     (set_fs (snd (exe_writing spleen_json 0
                                     (totalseg_argv "/tmp/tmpk3v9") (fs wc)))
                        wc))).
Proof.
  intros w'.
  destruct (C9_temporary_area_scoped sample_mkdtemp (exe_writing spleen_json 0)
              sample_json_loads
              [("study_selected_series_list",
                StudySelectedSeriesList sample_selected)]
              sample_world w'
              (fst (Totalsegmentator_compute sample_mkdtemp
                      (exe_writing spleen_json 0) sample_json_loads
                      [("study_selected_series_list",
                        StudySelectedSeriesList sample_selected)]
                      sample_world))
              (surjective_pairing _))
    as ((w1 & wc & rc & Hf1 & Hd1 & Hh1 & Hcopy & Hdir & Hrest)
        & Hhist & Hgone & _).
  split; [exact Hhist|]. split; [exact Hgone|].
  assert (w1 = tmp_enter "/tmp/tmpk3v9" sample_world) as ->.
  { destruct w1 as [[fl ds] h]. cbn in Hf1, Hd1, Hh1. now subst. }
  vm_compute in Hcopy. injection Hcopy as Hrc Hwc. rewrite <- Hrc in Hrest.
  exists wc. split; [exact Hdir|]. split.
  - rewrite <- Hwc. vm_compute. reflexivity.
  - destruct Hrest as (status & f' & Hexe & Hw').
    change (sample_mkdtemp (fs sample_world)) with "/tmp/tmpk3v9" in Hexe, Hw'.
    rewrite Hw', Hexe. reflexivity.
Defined.

(** C10: [compute] reads the first selected series of the first study and
    nothing else of what it receives.  The instances it copies are those
    of that series, and the invocation is the one it would be had that
    series been the only one.  When the files of that series are there,
    outside the temporary area, [compute] copies each of them into the
    area, in order, and no other file, then starts the executable once on
    the area, in the filesystem holding the copies, and removes the area;
    its result is that of the executable and of the reading of the
    statistics.  When the list received is empty, or the first study has
    no selected series, it raises [IndexError] after creating and removing
    its temporary area, and a run in which the loader and the selector
    return is aborted at the segmentation stage. *)
Theorem C10_first_series_only :
  forall (mkdtemp : filesystem -> string)
         (subprocess_run : list string -> filesystem -> outcome Z * filesystem)
         (json_loads : string -> option pyval),
    (forall s rest ss more temp w,
        selected_series s = ss :: more ->
        copy_instances (StudySelectedSeriesList (s :: rest)) temp w
        = for_each (get_sop_instances (series ss))
            (fun f => copy2 (sop_filename f) temp) w)
    /\ (forall s rest ss more w,
          selected_series s = ss :: more ->
          Totalsegmentator_compute mkdtemp subprocess_run json_loads
            [("study_selected_series_list",
              StudySelectedSeriesList (s :: rest))] w
          = Totalsegmentator_compute mkdtemp subprocess_run json_loads
              [("study_selected_series_list",
                StudySelectedSeriesList
                  [{| study := study s; selected_series := [ss] |}])] w)
    /\ (forall s rest ss more w,
          selected_series s = ss :: more ->
          let temp := mkdtemp (fs w) in
          let instances := get_sop_instances (series ss) in
          (forall g, In g instances ->
                     ~ inside temp (sop_filename g)
                     /\ (sop_filename g ∉ dirs (fs w))
                     /\ is_Some (files (fs w) !! sop_filename g)) ->
          exists (wc w0 : world) (r0 : outcome pyval),
            copy_instances (StudySelectedSeriesList (s :: rest)) temp
              (tmp_enter temp w) = (Return tt, wc)
            /\ history wc
               = history w ++ EvMkdtemp temp
                   :: map (fun g => EvCopy (sop_filename g)
                                      (copy_target temp g)) instances
            /\ (forall p, (forall g, In g instances -> copy_target temp g <> p) ->
                          files (fs wc) !! p = files (fs w) !! p)
            /\ (forall pre f post,
                  instances = pre ++ f :: post ->
                  (forall g, In g post ->
                             copy_target temp g <> copy_target temp f) ->
                  files (fs wc) !! copy_target temp f
                  = files (fs w) !! sop_filename f)
            /\ run_totalsegmentator subprocess_run json_loads temp wc
               = (r0, w0)
            /\ fs w0 = snd (subprocess_run (totalseg_argv temp) (fs wc))
            /\ history w0 = history wc ++ [EvExec (totalseg_argv temp)]
            /\ Totalsegmentator_compute mkdtemp subprocess_run json_loads
                 [("study_selected_series_list",
                   StudySelectedSeriesList (s :: rest))] w
               = (match r0 with
                  | Return report => Return [("report_dict", PyValue report)]
                  | Raise e => Raise e
                  end,
                  {| fs := rmtree temp (fs w0);
                     history := history w0 ++ [EvRmtree temp] |}))
    /\ (forall sel w,
          sel = [] \/ (exists s rest, sel = s :: rest /\ selected_series s = []) ->
          Totalsegmentator_compute mkdtemp subprocess_run json_loads
            [("study_selected_series_list", StudySelectedSeriesList sel)] w
          = (Raise IndexError,
             tmp_cleanup (mkdtemp (fs w)) (tmp_enter (mkdtemp (fs w)) w)))
    /\ (forall (float_of_str : string -> option float) (current_date : string)
               (doc_build : list flowable -> outcome string)
               (load_data_to_studies :
                  string -> filesystem -> outcome (list DICOMStudy) * filesystem)
               (selector_filter :
                  option string -> list DICOMStudy ->
                  outcome (list StudySelectedSeries))
               (write_encapsulated_pdf :
                  string -> ModelInfo -> list (string * string) ->
                  payload -> payload -> filesystem -> outcome unit * filesystem)
               (sample_data_path output_data_path : string) (fuel : nat)
               (w : world) (studies : list DICOMStudy) (f1 : filesystem)
               (sel : list StudySelectedSeries),
          (3 <= fuel)%nat ->
          load_data_to_studies sample_data_path (fs w) = (Return studies, f1) ->
          selector_filter None studies = Return sel ->
          sel = [] \/ (exists s rest, sel = s :: rest /\ selected_series s = []) ->
          exists st,
            App_run mkdtemp subprocess_run json_loads float_of_str current_date
              doc_build load_data_to_studies selector_filter
              write_encapsulated_pdf fuel sample_data_path output_data_path w
            = (Aborted "totalseg_op" IndexError, st)
            /\ executed st = ["dicom_loader"; "series_selector"; "totalseg_op"]).
Proof.
  intros mk run json.
  pose proof copy_instances_first as Hcopy.
  assert (forall sel w,
             sel = [] \/ (exists s rest, sel = s :: rest /\ selected_series s = []) ->
             Totalsegmentator_compute mk run json
               [("study_selected_series_list", StudySelectedSeriesList sel)] w
             = (Raise IndexError,
                tmp_cleanup (mk (fs w)) (tmp_enter (mk (fs w)) w))) as Hraise.
  { intros sel w Hsel.
    rewrite (Totalsegmentator_compute_eq mk run json _ w
               (tmp_enter (mk (fs w)) w) (Raise IndexError)); [reflexivity|].
    cbn [receive String.eqb Ascii.eqb Bool.eqb].
    unfold segment_in. apply pbind_raise.
    unfold copy_instances. apply pbind_raise. unfold lift. f_equal.
    destruct Hsel as [->|(s & rest & -> & Hs)].
    - reflexivity.
    - cbn [first_series_instances getitem nth_error bind]. now rewrite Hs. }
  split; [exact Hcopy|]. split; [|split; [|split; [exact Hraise|]]].
  - intros s rest ss more w Hs.
    assert (forall temp w1,
               segment_in run json (StudySelectedSeriesList (s :: rest)) temp w1
               = segment_in run json
                   (StudySelectedSeriesList
                      [{| study := study s; selected_series := [ss] |}])
                   temp w1) as Hseg.
    { intros temp w1. unfold segment_in, pbind.
      rewrite (Hcopy s rest ss more _ _ Hs).
      now rewrite (Hcopy {| study := study s; selected_series := [ss] |} [] ss
                     [] _ _ eq_refl). }
    destruct (segment_in run json (StudySelectedSeriesList (s :: rest))
                (mk (fs w)) (tmp_enter (mk (fs w)) w)) as [r0 w0] eqn:E.
    rewrite (Totalsegmentator_compute_eq mk run json
               [("study_selected_series_list",
                 StudySelectedSeriesList (s :: rest))] w w0 r0 E).
    rewrite Hseg in E.
    now rewrite (Totalsegmentator_compute_eq mk run json
                   [("study_selected_series_list",
                     StudySelectedSeriesList
                       [{| study := study s; selected_series := [ss] |}])]
                   w w0 r0 E).
  - intros s rest ss more w Hs temp instances Hfiles.
    destruct (copies_succeed temp instances (tmp_enter temp w))
      as (wc & Hrun & Hhist & Hdirs).
    { intros g Hg. destruct (Hfiles g Hg) as (Hgo & Hgd & Hgs).
      split; [exact Hgo|]. split; [|exact Hgs].
      now rewrite (tmp_enter_dirs temp _ w Hgo). }
    destruct (run_totalsegmentator run json temp wc) as [r0 w0] eqn:Eseg.
    pose proof (run_totalsegmentator_world run json temp wc w0 r0 Eseg) as Hw0.
    exists wc, w0, r0.
    split; [now rewrite (Hcopy s rest ss more _ _ Hs)|].
    split; [rewrite Hhist; cbn [tmp_enter history log set_fs];
            now rewrite <- app_assoc|].
    split; [intros p Hp;
            now rewrite (copies_write_targets temp instances _ _ _ p Hrun Hp)|].
    split.
    { intros pre f post Hsplit Hpost. fold instances in Hrun.
      rewrite Hsplit in Hrun.
      destruct (copies_content temp pre f post _ wc Hrun)
        as (content & Hsrc & Htgt).
      - intros g Hg. apply target_inside. apply (Hfiles f).
        rewrite Hsplit. apply in_or_app. right. now left.
      - exact Hpost.
      - rewrite Htgt. symmetry. exact Hsrc. }
    split; [exact Eseg|]. split; [now rewrite Hw0|].
    split; [now rewrite Hw0|].
    rewrite (Totalsegmentator_compute_eq mk run json _ w w0 r0); [reflexivity|].
    cbn [receive String.eqb Ascii.eqb Bool.eqb].
    unfold segment_in. fold temp.
    rewrite (pbind_run _ _ _ _ _
               (eq_trans (Hcopy s rest ss more _ _ Hs) Hrun)).
    exact Eseg.
  - intros fos date build load self writer inp outp fuel w studies f1 sel
           Hfuel Hload Hsel Hempty.
    do 3 (destruct fuel as [|fuel]; [lia|]). clear Hfuel.
    eexists. unfold App_run.
    rewrite (run_loader _ _ _ _ _ _ _ _ _ _ _ _ _ _ _ Hload).
    rewrite (run_selector _ _ _ _ _ _ _ _ _ _ _ _ _ _ _ Hsel).
    rewrite (run_segmentation_raise _ _ _ _ _ _ _ _ _ _ _ _ _ _ _ _
               (Hraise sel _ Hempty)).
    split; reflexivity.
Qed.

(** C10, at the sample invocation, where the CT series and the MR series
    are both selected: the two files of the CT series are copied, the file
    of the MR series is not, and the executable is started once. *)
Lemma C10_sample_series_witness :
  exists w',
    Totalsegmentator_compute sample_mkdtemp (exe_writing spleen_json 0)
      sample_json_loads
      [("study_selected_series_list", StudySelectedSeriesList sample_selected)]
      sample_world
    = (Return [("report_dict", PyValue spleen_statistics)], w')
    /\ history w'
       = [ EvMkdtemp "/tmp/tmpk3v9";
           EvCopy "/input/ct/1.dcm" "/tmp/tmpk3v9/1.dcm";
           EvCopy "/input/ct/2.dcm" "/tmp/tmpk3v9/2.dcm";
           EvExec [ "TotalSegmentator"; "-f"; "--roi_subset"; "spleen";
                    "--statistics"; "--body_seg"; "-i"; "/tmp/tmpk3v9";
                    "-o"; "/tmp/tmpk3v9/out" ];
           EvRmtree "/tmp/tmpk3v9" ].
Proof.
  destruct (proj1 (proj2 (proj2 (C10_first_series_only sample_mkdtemp
                                   (exe_writing spleen_json 0)
                                   sample_json_loads)))
              {| study := sample_study;
                 selected_series :=
                   [ {| selection_name := ""; series := ct_series |};
                     {| selection_name := ""; series := mr_series |} ] |}
              [] {| selection_name := ""; series := ct_series |}
              [ {| selection_name := ""; series := mr_series |} ]
              sample_world eq_refl)
    as (wc & w0 & r0 & Hcopy & Hh & _ & _ & Hrun & _ & Hh0 & Hcomp).
  - intros g Hg. split; [|split].
    + destruct Hg as [<-|[<-|[]]];
        (intros [H|H]; [discriminate H | vm_compute in H; discriminate H]).
    + cbn [sample_world fs sample_fs dirs].
      rewrite !not_elem_of_union, !not_elem_of_singleton.
      destruct Hg as [<-|[<-|[]]]; repeat split; discriminate.
    + destruct Hg as [<-|[<-|[]]]; vm_compute; eexists; reflexivity.
  - vm_compute in Hcopy. injection Hcopy as Hwc.
    rewrite <- Hwc in Hrun. vm_compute in Hrun. injection Hrun as Hr0 _.
    eexists. split.
    + rewrite <- Hr0 in Hcomp. exact Hcomp.
    + cbn [history]. rewrite Hh0, Hh. vm_compute. reflexivity.
Defined.

(** * Statements on the run of the application *)

(** C1 (as stated, refuted): in the sample run the executable writes the
    statistics [{}], the formatter returns null, the PDF stage emits that
    null on [pdf_bytes], and the embedding stage is started with null report
    bytes; its writer refuses them, and the run is aborted there. *)
Lemma C1_null_report_reaches_embedding :
  generate_pdf_report no_numeric_strings "2024-05-01 12:00:00" render_text
    (PDict []) = Return None
  /\ TotalsegmentatorPDF_compute no_numeric_strings "2024-05-01 12:00:00"
       render_text [("report_dict", PyValue (PDict []))] sample_world
     = (Return [("pdf_bytes", PyValue PNone)], sample_world)
  /\ fst (sample_run (exe_writing "{}" 0) render_text 6)
     = Aborted "pdf_dcm_encapsulator" (OSError "Input is read but blank.")
  /\ executed (snd (sample_run (exe_writing "{}" 0) render_text 6))
     = pipeline_stages
  /\ exists inputs,
       computed "pdf_dcm_encapsulator" inputs
         (the_world (snd (sample_run (exe_writing "{}" 0) render_text 6)))
       /\ receive inputs "pdf_bytes" = PyValue PNone.
Proof.
  split; [reflexivity|]. split; [reflexivity|]. split; [vm_compute; reflexivity|].
  split; [vm_compute; reflexivity|].
  eexists. split.
  - unfold computed. vm_compute.
    repeat (first [left; reflexivity | right]).
  - reflexivity.
Qed.

(** C1 (amended): the PDF stage emits on [pdf_bytes] whatever the formatter
    returned, null included; in a run in which the loader, the selector, the
    segmentation and the formatter return, all five stages are executed and
    the embedding stage is started with that value, whatever its writer
    does then: the run is complete when the writer returns and aborted at
    the embedding stage when it raises. *)
Theorem C1_pdf_stage_emits_formatter_result :
  forall (mkdtemp : filesystem -> string)
         (subprocess_run : list string -> filesystem -> outcome Z * filesystem)
         (json_loads : string -> option pyval)
         (float_of_str : string -> option float) (current_date : string)
         (doc_build : list flowable -> outcome string)
         (load_data_to_studies :
            string -> filesystem -> outcome (list DICOMStudy) * filesystem)
         (selector_filter :
            option string -> list DICOMStudy -> outcome (list StudySelectedSeries))
         (write_encapsulated_pdf :
            string -> ModelInfo -> list (string * string) ->
            payload -> payload -> filesystem -> outcome unit * filesystem)
         (sample_data_path output_data_path : string) (fuel : nat)
         (w w3 : world) (studies : list DICOMStudy) (f1 : filesystem)
         (sel : list StudySelectedSeries) (report : pyval)
         (pdf_bytes : option string),
    (6 <= fuel)%nat ->
    load_data_to_studies sample_data_path (fs w) = (Return studies, f1) ->
    selector_filter None studies = Return sel ->
    let seg_inputs :=
      [("study_selected_series_list", StudySelectedSeriesList sel)] in
    Totalsegmentator_compute mkdtemp subprocess_run json_loads seg_inputs
      (log (EvCompute "totalseg_op" seg_inputs)
         (log (EvCompute "series_selector"
                 [("dicom_study_list", StudyList studies)])
            (set_fs f1 (log (EvCompute "dicom_loader" []) w))))
    = (Return [("report_dict", PyValue report)], w3) ->
    generate_pdf_report float_of_str current_date doc_build report
    = Return pdf_bytes ->
    let writer_inputs :=
      [ ("study_selected_series_list", StudySelectedSeriesList sel);
        ("pdf_bytes", pdf_payload pdf_bytes) ] in
    let written :=
      write_encapsulated_pdf output_data_path
        {| creator := "J. Wasserthal"; model_name := "TotalSegmentator";
           model_version := "0.0.1"; model_uid := "" |}
        [("SeriesDescription", "TotalSegmentator Report: Organ volumes")]
        (StudySelectedSeriesList sel) (pdf_payload pdf_bytes) (fs w3) in
    (forall w0,
        TotalsegmentatorPDF_compute float_of_str current_date doc_build
          [("report_dict", PyValue report)] w0
        = (Return [("pdf_bytes", pdf_payload pdf_bytes)], w0))
    /\ exists st,
         App_run mkdtemp subprocess_run json_loads float_of_str current_date
           doc_build load_data_to_studies selector_filter
           write_encapsulated_pdf fuel sample_data_path output_data_path w
         = (match fst written with
            | Return _ => Completed
            | Raise e => Aborted "pdf_dcm_encapsulator" e
            end, st)
         /\ executed st = ["dicom_loader"; "series_selector"; "totalseg_op";
                           "totalseg_pdf_op"; "pdf_dcm_encapsulator"]
         /\ computed "pdf_dcm_encapsulator" writer_inputs (the_world st)
         /\ fs (the_world st) = snd written.
Proof.
  intros mk run json fos date build load self writer inp outp fuel w w3 studies
         f1 sel report pdf_bytes Hfuel Hload Hsel seg_inputs Hseg Hpdf
         writer_inputs written.
  split.
  - intros w0. now apply TotalsegmentatorPDF_compute_emits.
  - do 6 (destruct fuel as [|fuel]; [lia|]). clear Hfuel.
    unfold App_run.
    rewrite (run_loader _ _ _ _ _ _ _ _ _ _ _ _ _ _ _ Hload).
    rewrite (run_selector _ _ _ _ _ _ _ _ _ _ _ _ _ _ _ Hsel).
    rewrite (run_segmentation_return _ _ _ _ _ _ _ _ _ _ _ _ _ _ _ _ Hseg).
    rewrite (run_pdf _ _ _ _ _ _ _ _ _ _ _ _ _ _ _ _ Hpdf).
    rewrite (run_writer_any mk run json fos date build load self writer
               inp outp).
    cbn [fs log]. subst written.
    destruct (writer outp _ _ (StudySelectedSeriesList sel)
                (pdf_payload pdf_bytes) (fs w3)) as [[[]|e] f5].
    + rewrite (run_after_writer mk run json fos date build load self writer
                 inp outp).
      eexists. split; [reflexivity|]. split; [reflexivity|].
      split; [|reflexivity].
      unfold computed. cbn [the_world set_fs history log].
      apply in_or_app. right. now left.
    + eexists. split; [reflexivity|]. split; [reflexivity|].
      split; [|reflexivity].
      unfold computed. cbn [the_world set_fs history log].
      apply in_or_app. right. now left.
Qed.

(** C1, at the sample run with the statistics [{}]: the embedding stage is
    started with null report bytes, and its writer aborts the run. *)
Lemma C1_empty_statistics_witness :
  exists st,
    sample_run (exe_writing "{}" 0) render_text 6
    = (Aborted "pdf_dcm_encapsulator" (OSError "Input is read but blank."), st)
    /\ executed st = ["dicom_loader"; "series_selector"; "totalseg_op";
                      "totalseg_pdf_op"; "pdf_dcm_encapsulator"]
    /\ computed "pdf_dcm_encapsulator"
         [ ("study_selected_series_list", StudySelectedSeriesList sample_selected);
           ("pdf_bytes", PyValue PNone) ]
         (the_world st).
Proof.
  pose proof
    (fun w3 Hseg =>
       proj2 (C1_pdf_stage_emits_formatter_result sample_mkdtemp
                (exe_writing "{}" 0) sample_json_loads no_numeric_strings
                "2024-05-01 12:00:00" render_text sample_loader
                select_every_series sample_writer "/input" "/output" 6
                sample_world w3 [sample_study] sample_fs sample_selected
                (PDict []) None (le_n 6) eq_refl eq_refl Hseg eq_refl))
    as H.
  edestruct H as (st & Hrun & Hexec & Hcomp & _).
  - vm_compute. reflexivity.
  - exists st. split; [exact Hrun|]. split; [exact Hexec | exact Hcomp].
Defined.

(** X9: the graph [compose] builds has the five stages, named apart, and
    the five edges of lines 69-73; every edge leads from a stage to a later
    one, so that there is no cycle; no input port has two incoming edges;
    and at the two operators this repository declares, the segmentation
    stage and the PDF stage, every edge names a port their [setup]
    declares, every declared input port has one incoming edge and every
    declared output port feeds an edge.  The ports of the operators of the
    framework are not examined. *)
Theorem X9_composed_graph_well_formed :
  forall (mkdtemp : filesystem -> string)
         (subprocess_run : list string -> filesystem -> outcome Z * filesystem)
         (json_loads : string -> option pyval)
         (float_of_str : string -> option float) (current_date : string)
         (doc_build : list flowable -> outcome string)
         (load_data_to_studies :
            string -> filesystem -> outcome (list DICOMStudy) * filesystem)
         (selector_filter :
            option string -> list DICOMStudy -> outcome (list StudySelectedSeries))
         (write_encapsulated_pdf :
            string -> ModelInfo -> list (string * string) ->
            payload -> payload -> filesystem -> outcome unit * filesystem)
         (sample_data_path output_data_path : string),
    let g :=
      compose mkdtemp subprocess_run json_loads float_of_str current_date
        doc_build load_data_to_studies selector_filter write_encapsulated_pdf
        sample_data_path output_data_path in
    map op_name (operators g) = pipeline_stages
    /\ NoDup (map op_name (operators g))
    /\ flows g
       = [ {| producer := "dicom_loader"; out_port := "dicom_study_list";
              consumer := "series_selector"; in_port := "dicom_study_list" |};
           {| producer := "series_selector";
              out_port := "study_selected_series_list";
              consumer := "totalseg_op";
              in_port := "study_selected_series_list" |};
           {| producer := "totalseg_op"; out_port := "report_dict";
              consumer := "totalseg_pdf_op"; in_port := "report_dict" |};
           {| producer := "series_selector";
              out_port := "study_selected_series_list";
              consumer := "pdf_dcm_encapsulator";
              in_port := "study_selected_series_list" |};
           {| producer := "totalseg_pdf_op"; out_port := "pdf_bytes";
              consumer := "pdf_dcm_encapsulator"; in_port := "pdf_bytes" |} ]
    /\ forallb (flow_forward g) (flows g) = true
    /\ NoDup (map (fun f => (consumer f, in_port f)) (flows g))
    /\ map op_name (List.filter declared_here (operators g))
       = ["totalseg_op"; "totalseg_pdf_op"]
    /\ forallb (producer_port_ok g) (flows g) = true
    /\ forallb (consumer_port_ok g) (flows g) = true
    /\ forallb (ports_wired g) (List.filter declared_here (operators g))
       = true.
Proof.
  intros mk run json fos date build load self writer inp outp g. subst g.
  rewrite (compose_shape mk run json fos date build load self writer inp outp).
  split; [reflexivity|]. split.
  { cbn [map operators op_name DICOMDataLoaderOperator
         DICOMSeriesSelectorOperator TotalsegmentatorOperator
         TotalsegmentatorPDFOperator DICOMEncapsulatedPDFWriterOperator].
    repeat (apply NoDup_cons_2;
            [intros H;
             repeat (apply elem_of_cons in H as [H|H]; [discriminate H|]);
             now apply elem_of_nil in H
            |]).
    apply NoDup_nil_2. }
  split; [reflexivity|]. split; [reflexivity|]. split.
  { cbn [map flows consumer in_port].
    repeat (apply NoDup_cons_2;
            [intros H;
             repeat (apply elem_of_cons in H as [H|H]; [discriminate H|]);
             now apply elem_of_nil in H
            |]).
    apply NoDup_nil_2. }
  split; [reflexivity|]. split; [reflexivity|]. split; reflexivity.
Qed.
